(** * Filename and path providers of [ophyd_async.core._providers]

    A shallow embedding of the provider classes: every class is a module
    holding the record of its instance attributes ([t]), its constructor
    ([__init__]) and its call operation ([__call__]).  A method is a
    computation over the instance it is called on that either returns a
    value or raises; the instance survives a raise with whatever was
    assigned before it. *)

From Stdlib Require Import String Ascii ZArith List Lia Bool DecimalString.
From Stdlib Require Import Decimal DecimalFacts DecimalPos DecimalN DecimalZ.
From ExtLib Require Import Structures.Monad Structures.MonadState Structures.MonadExc.
From ExtLib Require Import Data.Monads.StateMonad Data.Monads.EitherMonad.
Import ListNotations MonadNotation.

Local Open Scope monad_scope.
Local Open Scope string_scope.
Local Open Scope Z_scope.

(** ** The Python built-ins the providers use *)

(** [str(n)] of an [int]: decimal digits, a leading minus sign for a
    negative number, no padding. *)
Definition str (n : Z) : string := NilZero.string_of_int (Z.to_int n).

(** [len(s)]. *)
Definition len (s : string) : Z := Z.of_nat (String.length s).

(** [fillchar * n]. *)
Fixpoint fill (n : nat) (fillchar : ascii) : string :=
  match n with
  | O => EmptyString
  | S n' => String fillchar (fill n' fillchar)
  end.

(** [s.rjust(width, fillchar)]: [s] itself when it is already [width]
    characters or more, otherwise padded on the left. *)
Definition rjust (s : string) (width : Z) (fillchar : ascii) : string :=
  if width <=? len s then s
  else fill (Z.to_nat (width - len s)) fillchar ++ s.

(** The path separator of [os.path] on POSIX. *)
Definition sep : ascii := "/"%char.

(** [s.startswith(sep)] and [s.endswith(sep)]. *)
Definition startswith_sep (s : string) : bool :=
  match s with
  | String c _ => Ascii.eqb c sep
  | EmptyString => false
  end.

Fixpoint endswith_sep (s : string) : bool :=
  match s with
  | EmptyString => false
  | String c EmptyString => Ascii.eqb c sep
  | String _ rest => endswith_sep rest
  end.

Definition is_empty (s : string) : bool :=
  match s with
  | EmptyString => true
  | String _ _ => false
  end.

(** One turn of the loop of [posixpath.join]: an absolute component
    discards what came before, a component after an empty path or after a
    trailing separator is appended as it is, any other one is appended
    after a separator. *)
Definition join_step (path b : string) : string :=
  if startswith_sep b then b
  else if is_empty path || endswith_sep path then path ++ b
  else path ++ String sep b.

(** [os.path.join(a, *p)]. *)
Definition os_path_join (a : string) (p : list string) : string :=
  fold_left join_step p a.

(** ** Exceptions and methods *)

(** Both failures of this module are [ValueError]s; the two messages are
    told apart by what they report. *)
Inductive name_based : Type := uuid3_func | uuid5_func.

Inductive message : Type :=
| namespace_and_name_must_be_set (uuid_call_func : name_based)
| counter_exceeded_maximum_digits (max_digits : Z).

Inductive exn : Type :=
| ValueError (msg : message).

(** A method of an object of type [Self] returning an [A]. *)
Definition method (Self A : Type) : Type := eitherT exn (state Self) A.

#[export] Instance Monad_method (Self : Type) : Monad (method Self) :=
  Monad_eitherT exn (Monad_state Self).

#[export] Instance MonadState_method (Self : Type)
  : MonadState Self (method Self) :=
  MonadState_eitherT exn (Monad_state Self) (MonadState_state Self).

#[export] Instance MonadExc_method (Self : Type)
  : MonadExc exn (method Self) :=
  Exception_eitherT exn (Monad_state Self).

(** Running a method on an instance gives the outcome (raised exception
    or returned value) and the instance afterwards. *)
Definition run {Self A : Type} (m : method Self A) (self : Self)
  : (exn + A) * Self :=
  runState (unEitherT m) self.

(** A caller that invokes [f] once per argument, in order, and keeps every
    outcome, going on after a raise. *)
Fixpoint call_each {Self A B : Type} (f : A -> method Self B)
    (args : list A) (self : Self) : list (exn + B) * Self :=
  match args with
  | [] => ([], self)
  | a :: rest =>
      let (r, self1) := run (f a) self in
      let (rs, self2) := call_each f rest self1 in
      (r :: rs, self2)
  end.

(** [n] successive calls of a method without arguments. *)
Definition call_times {Self B : Type} (m : method Self B) (n : nat)
    (self : Self) : list (exn + B) * Self :=
  call_each (fun _ : unit => m) (repeat tt n) self.

Definition raises {A : Type} (r : exn + A) : bool :=
  match r with
  | inl _ => true
  | inr _ => false
  end.

(** ** PathInfo *)

Definition Path : Type := string.

Record PathInfo : Type := {
  root : Path;
  resource_dir : Path;
  filename : string;
  create_dir_depth : Z
}.

(** ** The FilenameProvider protocol *)

Class FilenameProvider (F : Type) : Type :=
  filename_provider_call : method F string.

(** A filename provider none of whose calls raises. *)
Definition never_raises (F : Type) `{FilenameProvider F} : Prop :=
  forall self : F, raises (fst (run filename_provider_call self)) = false.

(** [self._filename_provider()] inside a method of the object [P] that
    holds the provider: the provider is called in place, and what it
    returns or raises is the outcome. *)
Definition call_held {F P : Type} `{FilenameProvider F}
    (held : P -> F) (hold : P -> F -> P) : method P string :=
  mkEitherT (mkState (fun self : P =>
    let (r, fp) := run filename_provider_call (held self) in
    (r, hold self fp))).

(** ** StaticFilenameProvider *)

Module StaticFilenameProvider.

Record t : Type := { _static_filename : string }.

Definition __init__ (filename : string) : t :=
  {| _static_filename := filename |}.

Definition __call__ : method t string :=
  self <- get ;;
  ret (_static_filename self).

End StaticFilenameProvider.

#[export] Instance StaticFilenameProvider_provider
  : FilenameProvider StaticFilenameProvider.t :=
  StaticFilenameProvider.__call__.

(** ** The uuid module, as far as the providers see it *)

(** The identifier generators are opaque.  The two name-based ones are
    functions of a namespace and a name; any other callable is called
    without arguments and answers from a source of its own, modelled as
    the sequence of its answers and the number of calls made so far. *)
Class UuidModule : Type := {
  UUID : Type;
  UUID_str : UUID -> string;
  uuid3 : UUID -> string -> UUID;
  uuid5 : UUID -> string -> UUID
}.

Record generator `{UuidModule} : Type := {
  answers : nat -> UUID;
  calls_made : nat
}.

Inductive callable `{UuidModule} : Type :=
| by_name (f : name_based)
| nullary (g : generator).

Definition apply_name_based `{UuidModule} (f : name_based)
    (namespace : UUID) (name : string) : UUID :=
  match f with
  | uuid3_func => uuid3 namespace name
  | uuid5_func => uuid5 namespace name
  end.

Definition next_answer `{UuidModule} (g : generator) : UUID * generator :=
  (answers g (calls_made g),
   {| answers := answers g; calls_made := S (calls_made g) |}).

(** ** UUIDFilenameProvider *)

Module UUIDFilenameProvider.
Section WithUuid.
Context `{UuidModule}.

Record t : Type := {
  _uuid_call_func : callable;
  _uuid_namespace : option UUID;
  _uuid_name : option string
}.

Definition __init__ (uuid_call_func : callable) : t :=
  {| _uuid_call_func := uuid_call_func;
     _uuid_namespace := None;
     _uuid_name := None |}.

Definition specify_uuid_namespace (namespace : option UUID)
    (name : option string) : method t unit :=
  self <- get ;;
  put {| _uuid_call_func := _uuid_call_func self;
         _uuid_namespace := namespace;
         _uuid_name := name |}.

Definition __call__ : method t string :=
  self <- get ;;
  match _uuid_call_func self with
  | by_name f =>
      match _uuid_namespace self, _uuid_name self with
      | Some namespace, Some name =>
          ret (UUID_str (apply_name_based f namespace name))
      | _, _ => raise (ValueError (namespace_and_name_must_be_set f))
      end
  | nullary g =>
      let (uuid_str, g') := next_answer g in
      put {| _uuid_call_func := nullary g';
             _uuid_namespace := _uuid_namespace self;
             _uuid_name := _uuid_name self |} ;;
      ret (UUID_str uuid_str)
  end.

End WithUuid.
Arguments t {_}.
End UUIDFilenameProvider.

#[export] Instance UUIDFilenameProvider_provider `{UuidModule}
  : FilenameProvider UUIDFilenameProvider.t :=
  UUIDFilenameProvider.__call__.

(** ** AutoIncrementFilenameProvider *)

Module AutoIncrementFilenameProvider.

Record t : Type := {
  _base_filename : string;
  _max_digits : Z;
  _current_value : Z;
  _increment : Z;
  _inc_delimeter : string
}.

Definition __init__ (base_filename : string) (max_digits : Z)
    (starting_value : Z) (increment : Z) (inc_delimeter : string) : t :=
  {| _base_filename := base_filename;
     _max_digits := max_digits;
     _current_value := starting_value;
     _increment := increment;
     _inc_delimeter := inc_delimeter |}.

(** The defaults of the constructor's keyword arguments. *)
Definition default_base_filename : string := EmptyString.
Definition default_max_digits : Z := 5.
Definition default_starting_value : Z := 0.
Definition default_increment : Z := 1.
Definition default_inc_delimeter : string := "_".

Definition set_current_value (self : t) (v : Z) : t :=
  {| _base_filename := _base_filename self;
     _max_digits := _max_digits self;
     _current_value := v;
     _increment := _increment self;
     _inc_delimeter := _inc_delimeter self |}.

Definition __call__ : method t string :=
  self <- get ;;
  if len (str (_current_value self)) >? _max_digits self
  then raise (ValueError (counter_exceeded_maximum_digits (_max_digits self)))
  else
    let padded_counter :=
      rjust (str (_current_value self)) (_max_digits self) "0" in
    let filename :=
      _base_filename self ++ _inc_delimeter self ++ padded_counter in
    put (set_current_value self (_current_value self + _increment self)) ;;
    ret filename.

End AutoIncrementFilenameProvider.

#[export] Instance AutoIncrementFilenameProvider_provider
  : FilenameProvider AutoIncrementFilenameProvider.t :=
  AutoIncrementFilenameProvider.__call__.

(** ** StaticPathProvider *)

Module StaticPathProvider.
Section Held.
Context {F : Type} `{FilenameProvider F}.

Record t : Type := {
  _filename_provider : F;
  _directory_path : Path;
  _resource_dir : Path;
  _create_dir_depth : Z
}.

Definition __init__ (filename_provider : F) (directory_path : Path)
    (resource_dir : Path) (create_dir_depth : Z) : t :=
  {| _filename_provider := filename_provider;
     _directory_path := directory_path;
     _resource_dir := resource_dir;
     _create_dir_depth := create_dir_depth |}.

Definition default_resource_dir : Path := ".".
Definition default_create_dir_depth : Z := 0.

Definition set_filename_provider (self : t) (fp : F) : t :=
  {| _filename_provider := fp;
     _directory_path := _directory_path self;
     _resource_dir := _resource_dir self;
     _create_dir_depth := _create_dir_depth self |}.

Definition __call__ (device_name : option string) : method t PathInfo :=
  filename <- call_held _filename_provider set_filename_provider ;;
  self <- get ;;
  ret {| root := _directory_path self;
         resource_dir := _resource_dir self;
         filename := filename;
         create_dir_depth := _create_dir_depth self |}.

End Held.
Arguments t : clear implicits.
End StaticPathProvider.

(** ** AutoIncrementingPathProvider *)

Module AutoIncrementingPathProvider.
Section Held.
Context {F : Type} `{FilenameProvider F}.

Record t : Type := {
  _filename_provider : F;
  _directory_path : Path;
  _create_dir_depth : Z;
  _base_name : option string;
  _starting_value : Z;
  _current_value : Z;
  _num_calls_per_inc : Z;
  _inc_counter : Z;
  _max_digits : Z;
  _increment : Z;
  _inc_delimeter : string
}.

Definition __init__ (filename_provider : F) (directory_path : Path)
    (create_dir_depth : Z) (max_digits : Z) (starting_value : Z)
    (num_calls_per_inc : Z) (increment : Z) (inc_delimeter : string)
    (base_name : option string) : t :=
  {| _filename_provider := filename_provider;
     _directory_path := directory_path;
     _create_dir_depth := create_dir_depth;
     _base_name := base_name;
     _starting_value := starting_value;
     _current_value := starting_value;
     _num_calls_per_inc := num_calls_per_inc;
     _inc_counter := 0;
     _max_digits := max_digits;
     _increment := increment;
     _inc_delimeter := inc_delimeter |}.

Definition default_create_dir_depth : Z := 0.
Definition default_max_digits : Z := 5.
Definition default_starting_value : Z := 0.
Definition default_num_calls_per_inc : Z := 1.
Definition default_increment : Z := 1.
Definition default_inc_delimeter : string := "_".
Definition default_base_name : option string := None.

Definition set_filename_provider (self : t) (fp : F) : t :=
  {| _filename_provider := fp;
     _directory_path := _directory_path self;
     _create_dir_depth := _create_dir_depth self;
     _base_name := _base_name self;
     _starting_value := _starting_value self;
     _current_value := _current_value self;
     _num_calls_per_inc := _num_calls_per_inc self;
     _inc_counter := _inc_counter self;
     _max_digits := _max_digits self;
     _increment := _increment self;
     _inc_delimeter := _inc_delimeter self |}.

Definition set_inc_counter (self : t) (v : Z) : t :=
  {| _filename_provider := _filename_provider self;
     _directory_path := _directory_path self;
     _create_dir_depth := _create_dir_depth self;
     _base_name := _base_name self;
     _starting_value := _starting_value self;
     _current_value := _current_value self;
     _num_calls_per_inc := _num_calls_per_inc self;
     _inc_counter := v;
     _max_digits := _max_digits self;
     _increment := _increment self;
     _inc_delimeter := _inc_delimeter self |}.

Definition set_current_value (self : t) (v : Z) : t :=
  {| _filename_provider := _filename_provider self;
     _directory_path := _directory_path self;
     _create_dir_depth := _create_dir_depth self;
     _base_name := _base_name self;
     _starting_value := _starting_value self;
     _current_value := v;
     _num_calls_per_inc := _num_calls_per_inc self;
     _inc_counter := _inc_counter self;
     _max_digits := _max_digits self;
     _increment := _increment self;
     _inc_delimeter := _inc_delimeter self |}.

Definition __call__ (device_name : option string) : method t PathInfo :=
  filename <- call_held _filename_provider set_filename_provider ;;
  self <- get ;;
  let padded_counter :=
    rjust (str (_current_value self)) (_max_digits self) "0" in
  let resource_dir :=
    match _base_name self, device_name with
    | Some base_name, _ => base_name ++ _inc_delimeter self ++ padded_counter
    | None, Some device_name =>
        device_name ++ _inc_delimeter self ++ padded_counter
    | None, None => padded_counter
    end in
  put (set_inc_counter self (_inc_counter self + 1)) ;;
  self <- get ;;
  (if _inc_counter self =? _num_calls_per_inc self
   then put (set_current_value (set_inc_counter self 0)
                               (_current_value self + 1))
   else ret tt) ;;
  self <- get ;;
  ret {| root := _directory_path self;
         resource_dir := resource_dir;
         filename := filename;
         create_dir_depth := _create_dir_depth self |}.

End Held.
Arguments t : clear implicits.
End AutoIncrementingPathProvider.

(** ** YMDPathProvider *)

(** What [date.today()] answers: the calendar date of the moment it is
    called. *)
Record date : Type := { year : Z; month : Z; day : Z }.

Module YMDPathProvider.
Section Held.
Context {F : Type} `{FilenameProvider F}.

Record t : Type := {
  _filename_provider : F;
  _directory_path : Path;
  _create_dir_depth : Z;
  _device_name_as_base_dir : bool
}.

Definition __init__ (filename_provider : F) (directory_path : Path)
    (create_dir_depth : Z) (device_name_as_base_dir : bool) : t :=
  {| _filename_provider := filename_provider;
     _directory_path := directory_path;
     _create_dir_depth := create_dir_depth;
     _device_name_as_base_dir := device_name_as_base_dir |}.

Definition default_create_dir_depth : Z := 0.
Definition default_device_name_as_base_dir : bool := false.

Definition set_filename_provider (self : t) (fp : F) : t :=
  {| _filename_provider := fp;
     _directory_path := _directory_path self;
     _create_dir_depth := _create_dir_depth self;
     _device_name_as_base_dir := _device_name_as_base_dir self |}.

(** [today] is the answer of the call's own [date.today()]. *)
Definition __call__ (today : date) (device_name : option string)
    : method t PathInfo :=
  let current_date := today in
  self <- get ;;
  let resource_dir :=
    match device_name with
    | None =>
        os_path_join (str (year current_date))
          [str (month current_date); str (day current_date)]
    | Some device_name =>
        if _device_name_as_base_dir self
        then os_path_join (str (year current_date))
               [str (month current_date); str (day current_date);
                device_name]
        else os_path_join device_name
               [str (year current_date); str (month current_date);
                str (day current_date)]
    end in
  filename <- call_held _filename_provider set_filename_provider ;;
  self <- get ;;
  ret {| root := _directory_path self;
         resource_dir := resource_dir;
         filename := filename;
         create_dir_depth := _create_dir_depth self |}.

End Held.
Arguments t : clear implicits.
End YMDPathProvider.


(** ** Vocabulary of the statements *)

(** The outcome of a call seen through one field of what it returned. *)
Definition outcome_map {A B : Type} (f : A -> B) (r : exn + A) : exn + B :=
  match r with
  | inl e => inl e
  | inr a => inr (f a)
  end.

(** The three decimal digits of a number below one thousand, hundreds
    first, written without [str]. *)
Definition digit (d : nat) : ascii := ascii_of_nat (48 + d).

Definition three_digits (n : nat) : string :=
  String (digit (n / 100))
    (String (digit ((n / 10) mod 10))
      (String (digit (n mod 10)) EmptyString)).

(** A path component that is a single segment: not empty and free of the
    separator. *)
Fixpoint free_of_sep (s : string) : bool :=
  match s with
  | EmptyString => true
  | String c rest => negb (Ascii.eqb c sep) && free_of_sep rest
  end.

Definition plain_segment (s : string) : bool :=
  negb (is_empty s) && free_of_sep s.

(** The segments written one after the other with the separator between
    them. *)
Definition separated (segments : list string) : string :=
  String.concat (String sep EmptyString) segments.

(** A path that a further component is appended to after a separator:
    not empty and not ending in one. *)
Definition open_path (path : string) : bool :=
  negb (is_empty path) && negb (endswith_sep path).

(** [os.path.join] of a list of components, the first one leading. *)
Definition join_segments (segments : list string) : string :=
  match segments with
  | [] => EmptyString
  | a :: p => os_path_join a p
  end.

(** The segments the specification gives the resource directory of
    YMDPathProvider: year, month and day as [str] writes them, alone
    when no device name is passed, after the device name when it is not
    used as base directory, before it when it is. *)
Definition spec_ymd_segments (device_name_as_base_dir : bool) (today : date)
    (device_name : option string) : list string :=
  let ymd := [str (year today); str (month today); str (day today)] in
  match device_name with
  | None => ymd
  | Some device =>
      if device_name_as_base_dir then (ymd ++ [device])%list
      else device :: ymd
  end.

(** The name of the resource directory as
    [AutoIncrementingPathProvider.__call__] composes it from the
    configured base name, the device name of the call, the delimiter and
    the padded counter. *)
Definition directory_name (base_name device_name : option string)
    (inc_delimeter padded_counter : string) : string :=
  match base_name, device_name with
  | Some base_name, _ => base_name ++ inc_delimeter ++ padded_counter
  | None, Some device_name => device_name ++ inc_delimeter ++ padded_counter
  | None, None => padded_counter
  end.

(** A stand-in for the uuid module in concrete runs: identifiers are
    strings, and a name-based identifier spells out the algorithm, the
    namespace and the name. *)
Definition spelled_out_uuid : UuidModule :=
  {| UUID := string;
     UUID_str := fun u => u;
     uuid3 := fun namespace name => "3:" ++ namespace ++ ":" ++ name;
     uuid5 := fun namespace name => "5:" ++ namespace ++ ":" ++ name |}.

Module AIF := AutoIncrementFilenameProvider.
Module UFP := UUIDFilenameProvider.
Module SPP := StaticPathProvider.
Module AIP := AutoIncrementingPathProvider.
Module YMD := YMDPathProvider.

(** * Properties *)

(** ** How the call operations run *)

Lemma call_held_run {F P : Type} `{FilenameProvider F}
    (held : P -> F) (hold : P -> F -> P) (self : P) :
  run (call_held held hold) self =
  (fst (run filename_provider_call (held self)),
   hold self (snd (run filename_provider_call (held self)))).
Proof.
  unfold call_held. unfold run at 1. cbn [unEitherT runState].
  destruct (run filename_provider_call (held self)); reflexivity.
Qed.

Lemma call_times_S {Self B : Type} (m : method Self B) (n : nat) (self : Self) :
  call_times m (S n) self =
  (fst (run m self) :: fst (call_times m n (snd (run m self))),
   snd (call_times m n (snd (run m self)))).
Proof.
  unfold call_times. cbn [repeat call_each].
  destruct (run m self) as [r self1]. cbn [fst snd].
  destruct (call_each _ _ self1); reflexivity.
Qed.

Lemma call_each_cons {Self A B : Type} (f : A -> method Self B) (a : A)
    (rest : list A) (self : Self) :
  call_each f (a :: rest) self =
  (fst (run (f a) self) :: fst (call_each f rest (snd (run (f a) self))),
   snd (call_each f rest (snd (run (f a) self)))).
Proof.
  cbn [call_each].
  destruct (run (f a) self) as [r self1]. cbn [fst snd].
  destruct (call_each f rest self1); reflexivity.
Qed.

Lemma StaticFilenameProvider_run (self : StaticFilenameProvider.t) :
  run StaticFilenameProvider.__call__ self =
  (inr (StaticFilenameProvider._static_filename self), self).
Proof. reflexivity. Qed.

Lemma StaticFilenameProvider_never_raises :
  never_raises StaticFilenameProvider.t.
Proof. intros self. reflexivity. Qed.

Lemma AutoIncrementFilenameProvider_run (self : AIF.t) :
  run AIF.__call__ self =
  if len (str (AIF._current_value self)) >? AIF._max_digits self
  then (inl (ValueError
               (counter_exceeded_maximum_digits (AIF._max_digits self))),
        self)
  else (inr (AIF._base_filename self ++ AIF._inc_delimeter self
             ++ rjust (str (AIF._current_value self))
                      (AIF._max_digits self) "0"),
        AIF.set_current_value self
          (AIF._current_value self + AIF._increment self)).
Proof.
  unfold run, AIF.__call__. cbn.
  destruct (len _ >? _); reflexivity.
Qed.

(** ** AutoIncrementFilenameProvider *)

(** C2.  The provider built with base filename x, three digits, starting
    value 0 and increment 1 answers x_000, x_001, ..., x_999 to its first
    thousand calls, one after the other; the call after those finds the
    value 1000, four digits long, and raises the counter error, leaving
    1000 in the counter. *)
Theorem AutoIncrementFilenameProvider_thousand_names_then_overflow :
  call_times AIF.__call__ 1001 (AIF.__init__ "x" 3 0 1 "_") =
  ((map (fun n => inr ("x_" ++ three_digits n)%string) (seq 0 1000)
    ++ [inl (ValueError (counter_exceeded_maximum_digits 3))])%list,
   AIF.__init__ "x" 3 1000 1 "_").
Proof. vm_compute. reflexivity. Qed.

Lemma AutoIncrementFilenameProvider_raise_keeps_state
    (self self' : AIF.t) (e : exn) :
  run AIF.__call__ self = (inl e, self') ->
  self' = self /\
  e = ValueError (counter_exceeded_maximum_digits (AIF._max_digits self)).
Proof.
  rewrite AutoIncrementFilenameProvider_run.
  destruct (len _ >? _); intros E; inversion E; subst; auto.
Qed.

(** C7.  A call of AutoIncrementFilenameProvider that raises is the
    counter error and leaves the instance as it was, so any number of
    further calls raise the same error and still leave it as it was. *)
Theorem AutoIncrementFilenameProvider_overflow_is_permanent
    (self self' : AIF.t) (e : exn) :
  run AIF.__call__ self = (inl e, self') ->
  self' = self /\
  e = ValueError (counter_exceeded_maximum_digits (AIF._max_digits self)) /\
  forall n : nat, call_times AIF.__call__ n self' = (repeat (inl e) n, self).
Proof.
  intros E.
  destruct (AutoIncrementFilenameProvider_raise_keeps_state _ _ _ E)
    as [-> ->].
  repeat split.
  induction n as [| n IH].
  - reflexivity.
  - rewrite call_times_S, E. cbn [fst snd]. rewrite IH. reflexivity.
Qed.

Lemma AutoIncrementFilenameProvider_overflow_is_permanent_witness :
  let self := AIF.__init__ "x" 3 1000 1 "_" in
  let e := ValueError (counter_exceeded_maximum_digits 3) in
  self = self /\
  e = ValueError (counter_exceeded_maximum_digits (AIF._max_digits self)) /\
  forall n : nat, call_times AIF.__call__ n self = (repeat (inl e) n, self).
Proof.
  apply (AutoIncrementFilenameProvider_overflow_is_permanent
           (AIF.__init__ "x" 3 1000 1 "_") (AIF.__init__ "x" 3 1000 1 "_")
           (ValueError (counter_exceeded_maximum_digits 3))).
  reflexivity.
Defined.

(** ** AutoIncrementingPathProvider *)

Section AutoIncrementingPathProviderRuns.
Context {F : Type} `{FilenameProvider F}.

Lemma AutoIncrementingPathProvider_run (self : AIP.t F)
    (device_name : option string) :
  run (AIP.__call__ device_name) self =
  match run filename_provider_call (AIP._filename_provider self) with
  | (inl e, fp) => (inl e, AIP.set_filename_provider self fp)
  | (inr filename, fp) =>
      let padded_counter :=
        rjust (str (AIP._current_value self)) (AIP._max_digits self) "0" in
      let counted :=
        AIP.set_inc_counter (AIP.set_filename_provider self fp)
          (AIP._inc_counter self + 1) in
      (inr {| root := AIP._directory_path self;
              resource_dir :=
                match AIP._base_name self, device_name with
                | Some base_name, _ =>
                    base_name ++ AIP._inc_delimeter self ++ padded_counter
                | None, Some device_name =>
                    device_name ++ AIP._inc_delimeter self ++ padded_counter
                | None, None => padded_counter
                end;
              filename := filename;
              create_dir_depth := AIP._create_dir_depth self |},
       if AIP._inc_counter self + 1 =? AIP._num_calls_per_inc self
       then AIP.set_current_value (AIP.set_inc_counter counted 0)
              (AIP._current_value self + 1)
       else counted)
  end.
Proof.
  unfold AIP.__call__. unfold run at 1.
  unfold call_held. cbn.
  destruct (run filename_provider_call (AIP._filename_provider self))
    as [[e | filename] fp]; cbn.
  - reflexivity.
  - destruct (AIP._inc_counter self + 1 =? AIP._num_calls_per_inc self);
      reflexivity.
Qed.

(** C10.  When the held filename provider raises, the call of the path
    provider raises the same exception and has assigned nothing: the
    directory counter and the call tally are what they were, and only the
    filename provider is as its own call left it. *)
Theorem AutoIncrementingPathProvider_filename_raise_keeps_counter
    (self : AIP.t F) (device_name : option string) (e : exn) (fp : F) :
  run filename_provider_call (AIP._filename_provider self) = (inl e, fp) ->
  run (AIP.__call__ device_name) self
  = (inl e, AIP.set_filename_provider self fp) /\
  AIP._current_value (snd (run (AIP.__call__ device_name) self))
  = AIP._current_value self /\
  AIP._inc_counter (snd (run (AIP.__call__ device_name) self))
  = AIP._inc_counter self.
Proof.
  intros E. rewrite AutoIncrementingPathProvider_run, E.
  repeat split.
Qed.

(** C6.  Whenever the filename provider returns, the resource directory
    is base name, delimiter, padded counter if a base name is configured,
    whatever device name is passed; without a base name it is device
    name, delimiter, padded counter if a device name is passed, and the
    padded counter alone otherwise. *)
Theorem AutoIncrementingPathProvider_directory_name
    (self : AIP.t F) (device_name : option string) (filename : string)
    (fp : F) :
  run filename_provider_call (AIP._filename_provider self)
  = (inr filename, fp) ->
  outcome_map resource_dir (fst (run (AIP.__call__ device_name) self)) =
  inr (let padded_counter :=
         rjust (str (AIP._current_value self)) (AIP._max_digits self) "0" in
       match AIP._base_name self with
       | Some base_name =>
           base_name ++ AIP._inc_delimeter self ++ padded_counter
       | None =>
           match device_name with
           | Some device_name =>
               device_name ++ AIP._inc_delimeter self ++ padded_counter
           | None => padded_counter
           end
       end).
Proof.
  intros E. rewrite AutoIncrementingPathProvider_run, E. cbn.
  destruct (AIP._base_name self), device_name; reflexivity.
Qed.

Lemma rjust_wide_enough (s : string) (width : Z) (fillchar : ascii) :
  width <= len s -> rjust s width fillchar = s.
Proof.
  intros Hw. unfold rjust.
  destruct (Z.leb_spec width (len s)); [reflexivity | lia].
Qed.

(** C9.  The call of the path provider raises exactly when the held
    filename provider does, whatever the directory counter holds: the
    counter is never checked against the digit width.  When its decimal
    text is longer than the width the padding returns that text as it is,
    and the resource directory carries the whole of it. *)
Theorem AutoIncrementingPathProvider_counter_not_guarded
    (self : AIP.t F) (device_name : option string) :
  raises (fst (run (AIP.__call__ device_name) self))
  = raises (fst (run filename_provider_call (AIP._filename_provider self)))
  /\
  (AIP._max_digits self < len (str (AIP._current_value self)) ->
   rjust (str (AIP._current_value self)) (AIP._max_digits self) "0"
   = str (AIP._current_value self) /\
   forall (filename : string) (fp : F),
     run filename_provider_call (AIP._filename_provider self)
     = (inr filename, fp) ->
     outcome_map resource_dir (fst (run (AIP.__call__ device_name) self)) =
     inr (match AIP._base_name self with
          | Some base_name =>
              base_name ++ AIP._inc_delimeter self
              ++ str (AIP._current_value self)
          | None =>
              match device_name with
              | Some device_name =>
                  device_name ++ AIP._inc_delimeter self
                  ++ str (AIP._current_value self)
              | None => str (AIP._current_value self)
              end
          end)).
Proof.
  split.
  - rewrite AutoIncrementingPathProvider_run.
    destruct (run filename_provider_call (AIP._filename_provider self))
      as [[e | filename] fp]; reflexivity.
  - intros Hlong.
    assert (Hpad : rjust (str (AIP._current_value self))
                     (AIP._max_digits self) "0"
                   = str (AIP._current_value self))
      by (apply rjust_wide_enough; lia).
    split; [exact Hpad |].
    intros filename fp E.
    rewrite (AutoIncrementingPathProvider_run self device_name), E. cbn.
    rewrite Hpad.
    destruct (AIP._base_name self), device_name; reflexivity.
Qed.

(** Under a filename provider that never raises, a call returns, counts
    itself in the tally and, when the tally reaches the configured number
    of calls, clears it and adds one to the directory counter.  Nothing
    else changes but the filename provider itself. *)
Lemma AutoIncrementingPathProvider_step (self : AIP.t F)
    (device_name : option string) :
  never_raises F ->
  let self' := snd (run (AIP.__call__ device_name) self) in
  raises (fst (run (AIP.__call__ device_name) self)) = false /\
  AIP._num_calls_per_inc self' = AIP._num_calls_per_inc self /\
  AIP._increment self' = AIP._increment self /\
  AIP._inc_counter self'
  = (if AIP._inc_counter self + 1 =? AIP._num_calls_per_inc self
     then 0 else AIP._inc_counter self + 1) /\
  AIP._current_value self'
  = (if AIP._inc_counter self + 1 =? AIP._num_calls_per_inc self
     then AIP._current_value self + 1 else AIP._current_value self).
Proof.
  intros Hnever. cbv zeta.
  rewrite AutoIncrementingPathProvider_run.
  specialize (Hnever (AIP._filename_provider self)).
  destruct (run filename_provider_call (AIP._filename_provider self))
    as [[e | filename] fp]; [discriminate Hnever |].
  cbn.
  destruct (AIP._inc_counter self + 1 =? AIP._num_calls_per_inc self);
    repeat split.
Qed.

(** What the code does over any run of calls: with [N] calls per
    increment and a tally [c] below [N], after [n] calls the counter has
    grown by the quotient of [c + n] by [N], one per completed group,
    and the tally is the remainder. *)
Lemma AutoIncrementingPathProvider_counter_after_calls :
  never_raises F ->
  forall (hints : list (option string)) (self : AIP.t F),
    0 <= AIP._inc_counter self < AIP._num_calls_per_inc self ->
    let self' := snd (call_each AIP.__call__ hints self) in
    AIP._current_value self'
    = AIP._current_value self
      + (AIP._inc_counter self + Z.of_nat (length hints))
        / AIP._num_calls_per_inc self /\
    AIP._inc_counter self'
    = (AIP._inc_counter self + Z.of_nat (length hints))
      mod AIP._num_calls_per_inc self.
Proof.
  intros Hnever hints.
  induction hints as [| hint hints IH]; intros self Hc; cbv zeta.
  - cbn [call_each snd length Z.of_nat]. rewrite Z.add_0_r.
    rewrite Z.div_small, Z.mod_small by lia. lia.
  - rewrite call_each_cons. cbn [snd].
    destruct (AutoIncrementingPathProvider_step self hint Hnever)
      as (_ & HN & _ & Hc' & Hv').
    set (self1 := snd (run (AIP.__call__ hint) self)) in *.
    set (N := AIP._num_calls_per_inc self) in *.
    assert (Hc1 : 0 <= AIP._inc_counter self1 < AIP._num_calls_per_inc self1).
    { rewrite HN, Hc'. destruct (Z.eqb_spec (AIP._inc_counter self + 1) N); lia. }
    specialize (IH self1 Hc1). cbv zeta in IH. destruct IH as [IHv IHc].
    rewrite IHv, IHc, HN, Hc', Hv'.
    replace (Z.of_nat (length (hint :: hints)))
      with (1 + Z.of_nat (length hints))
      by (cbn [length]; lia).
    destruct (Z.eqb_spec (AIP._inc_counter self + 1) N) as [Heq | Hne].
    + replace (AIP._inc_counter self + (1 + Z.of_nat (length hints)))
        with (Z.of_nat (length hints) + 1 * N) by lia.
      rewrite Z.div_add, Z.mod_add by lia. rewrite Z.add_0_l. lia.
    + replace (AIP._inc_counter self + (1 + Z.of_nat (length hints)))
        with (AIP._inc_counter self + 1 + Z.of_nat (length hints)) by lia.
      lia.
Qed.

End AutoIncrementingPathProviderRuns.

Lemma AutoIncrementingPathProvider_filename_raise_keeps_counter_witness :
  let self :=
    AIP.__init__ (AIF.__init__ "x" 3 1000 1 "_") "/data" 0 5 7 2 1 "_" None in
  let e := ValueError (counter_exceeded_maximum_digits 3) in
  run (AIP.__call__ (Some "det")) self = (inl e, self) /\
  AIP._current_value (snd (run (AIP.__call__ (Some "det")) self)) = 7 /\
  AIP._inc_counter (snd (run (AIP.__call__ (Some "det")) self)) = 0.
Proof.
  apply (AutoIncrementingPathProvider_filename_raise_keeps_counter
           (AIP.__init__ (AIF.__init__ "x" 3 1000 1 "_")
              "/data" 0 5 7 2 1 "_" None)
           (Some "det")
           (ValueError (counter_exceeded_maximum_digits 3))
           (AIF.__init__ "x" 3 1000 1 "_")).
  reflexivity.
Defined.

Lemma AutoIncrementingPathProvider_directory_name_witness :
  outcome_map resource_dir
    (fst (run (AIP.__call__ (Some "det"))
            (AIP.__init__ (StaticFilenameProvider.__init__ "f")
               "/data" 0 5 12 1 1 "_" (Some "run"))))
  = inr "run_00012".
Proof.
  apply (AutoIncrementingPathProvider_directory_name
           (AIP.__init__ (StaticFilenameProvider.__init__ "f")
              "/data" 0 5 12 1 1 "_" (Some "run"))
           (Some "det") "f" (StaticFilenameProvider.__init__ "f")).
  reflexivity.
Defined.

Lemma AutoIncrementingPathProvider_counter_not_guarded_witness :
  let self :=
    AIP.__init__ (StaticFilenameProvider.__init__ "f")
      "/data" 0 2 12345 1 1 "_" None in
  rjust (str 12345) 2 "0" = "12345" /\
  outcome_map resource_dir (fst (run (AIP.__call__ (Some "det")) self))
  = inr "det_12345".
Proof.
  cbv zeta.
  destruct (AutoIncrementingPathProvider_counter_not_guarded
              (AIP.__init__ (StaticFilenameProvider.__init__ "f")
                 "/data" 0 2 12345 1 1 "_" None)
              (Some "det")) as [_ Hlong].
  destruct (Hlong ltac:(vm_compute; reflexivity)) as [Hpad Hdir].
  split.
  - exact Hpad.
  - exact (Hdir "f" (StaticFilenameProvider.__init__ "f") eq_refl).
Defined.

(** C4.  Built with two calls per increment and starting value 0, every
    other parameter at its default, over a filename provider that never
    raises, the path provider called four times with device name det
    gives the resource directories det_00000, det_00000, det_00001,
    det_00001, in this order. *)
Theorem AutoIncrementingPathProvider_two_calls_per_directory
    {F : Type} `{FilenameProvider F} :
  never_raises F ->
  forall (filename_provider : F) (directory_path : Path),
    map (outcome_map resource_dir)
      (fst (call_each AIP.__call__
              [Some "det"; Some "det"; Some "det"; Some "det"]
              (AIP.__init__ filename_provider directory_path
                 AIP.default_create_dir_depth AIP.default_max_digits
                 0 2 AIP.default_increment AIP.default_inc_delimeter
                 AIP.default_base_name)))
    = [inr "det_00000"; inr "det_00000"; inr "det_00001"; inr "det_00001"].
Proof.
  intros Hnever filename_provider directory_path.
  unfold AIP.__init__.
  repeat
    (rewrite call_each_cons, AutoIncrementingPathProvider_run;
     cbn [AIP._filename_provider AIP.set_filename_provider];
     match goal with
     | |- context [run filename_provider_call ?fp] =>
         let E := fresh "E" in
         pose proof (Hnever fp) as E;
         destruct (run filename_provider_call fp) as [[? | ?] ?];
         [discriminate E | clear E]
     end;
     cbn -[call_each]).
  reflexivity.
Qed.

Lemma AutoIncrementingPathProvider_two_calls_per_directory_witness :
  map (outcome_map resource_dir)
    (fst (call_each AIP.__call__
            [Some "det"; Some "det"; Some "det"; Some "det"]
            (AIP.__init__ (StaticFilenameProvider.__init__ "f") "/data"
               AIP.default_create_dir_depth AIP.default_max_digits
               0 2 AIP.default_increment AIP.default_inc_delimeter
               AIP.default_base_name)))
  = [inr "det_00000"; inr "det_00000"; inr "det_00001"; inr "det_00001"].
Proof.
  apply (AutoIncrementingPathProvider_two_calls_per_directory
           (F := StaticFilenameProvider.t)).
  intros self. reflexivity.
Defined.

(** X9.  After [k] complete groups of [N] calls from construction the counter
    is the starting value plus [k]: one per group, whatever increment was
    configured. *)
Lemma AutoIncrementingPathProvider_counter_after_groups
    {F : Type} `{FilenameProvider F} :
  never_raises F ->
  forall (filename_provider : F) (directory_path : Path)
         (create_dir_depth max_digits starting_value N increment : Z)
         (inc_delimeter : string) (base_name : option string)
         (k : Z) (hints : list (option string)),
    1 <= N -> 0 <= k ->
    Z.of_nat (length hints) = k * N ->
    let self' :=
      snd (call_each AIP.__call__ hints
             (AIP.__init__ filename_provider directory_path create_dir_depth
                max_digits starting_value N increment inc_delimeter
                base_name)) in
    AIP._current_value self' = starting_value + k /\
    AIP._inc_counter self' = 0.
Proof.
  intros Hnever fp dir depth digits start N inc delim base k hints HN Hk Hlen.
  cbv zeta.
  destruct (AutoIncrementingPathProvider_counter_after_calls Hnever hints
              (AIP.__init__ fp dir depth digits start N inc delim base))
    as [Hv Hc]; [cbn; lia |].
  rewrite Hv, Hc. cbn [AIP.__init__ AIP._current_value AIP._inc_counter
                         AIP._num_calls_per_inc].
  rewrite Hlen, Z.add_0_l, Z.div_mul, Z.mod_mul by lia. split; reflexivity.
Qed.

(** C1.  Built with one call per increment, starting value 0 and
    increment 2, the provider called once has tally 0 again and counter
    1: the counter grew by one, not by the configured 2, which is still
    held in the instance. *)
Theorem AutoIncrementingPathProvider_increment_not_applied :
  let self :=
    AIP.__init__ (StaticFilenameProvider.__init__ "f") "/data" 0 5 0 1 2
      "_" None in
  let self' := snd (run (AIP.__call__ None) self) in
  AIP._increment self' = 2 /\
  AIP._inc_counter self' = 0 /\
  AIP._current_value self' = 1 /\
  AIP._current_value self' <> AIP._starting_value self' + 1 * AIP._increment self'.
Proof. vm_compute. repeat split. discriminate. Qed.

(** ** StaticPathProvider *)

Section StaticPathProviderRuns.
Context {F : Type} `{FilenameProvider F}.

Lemma StaticPathProvider_run (self : SPP.t F) (device_name : option string) :
  run (SPP.__call__ device_name) self =
  (outcome_map
     (fun filename =>
        {| root := SPP._directory_path self;
           resource_dir := SPP._resource_dir self;
           filename := filename;
           create_dir_depth := SPP._create_dir_depth self |})
     (fst (run filename_provider_call (SPP._filename_provider self))),
   SPP.set_filename_provider self
     (snd (run filename_provider_call (SPP._filename_provider self)))).
Proof.
  unfold SPP.__call__. unfold run at 1. unfold call_held. cbn.
  destruct (run filename_provider_call (SPP._filename_provider self))
    as [[e | filename] fp]; reflexivity.
Qed.

(** C8.  Over any sequence of calls, whatever device names are passed,
    the outcomes of a StaticPathProvider are those of as many calls of
    its filename provider, each filename returned inside a PathInfo
    whose root, resource directory and creation depth are the configured
    ones; so all returned records agree on these three fields, and the
    provider itself changes in its filename provider only. *)
Theorem StaticPathProvider_only_filename_varies
    (hints : list (option string)) (self : SPP.t F) :
  fst (call_each SPP.__call__ hints self)
  = map (outcome_map
           (fun filename =>
              {| root := SPP._directory_path self;
                 resource_dir := SPP._resource_dir self;
                 filename := filename;
                 create_dir_depth := SPP._create_dir_depth self |}))
        (fst (call_times filename_provider_call (length hints)
                (SPP._filename_provider self)))
  /\
  Forall (fun r => forall info : PathInfo, r = inr info ->
            root info = SPP._directory_path self /\
            resource_dir info = SPP._resource_dir self /\
            create_dir_depth info = SPP._create_dir_depth self)
         (fst (call_each SPP.__call__ hints self))
  /\
  snd (call_each SPP.__call__ hints self)
  = SPP.set_filename_provider self
      (snd (call_times filename_provider_call (length hints)
              (SPP._filename_provider self))).
Proof.
  revert self.
  induction hints as [| hint hints IH]; intros self.
  - cbn. repeat split; [constructor | destruct self; reflexivity].
  - rewrite call_each_cons, StaticPathProvider_run. cbn [fst snd length].
    rewrite call_times_S. cbn [fst snd map].
    set (fp1 := snd (run filename_provider_call (SPP._filename_provider self))).
    destruct (IH (SPP.set_filename_provider self fp1)) as (IHr & IHf & IHs).
    cbn [SPP.set_filename_provider SPP._directory_path SPP._resource_dir
         SPP._create_dir_depth SPP._filename_provider] in IHr, IHf, IHs.
    repeat split.
    + f_equal. exact IHr.
    + constructor; [| exact IHf].
      intros info E.
      destruct (fst (run filename_provider_call (SPP._filename_provider self)));
        cbn in E; [discriminate E |].
      injection E as <-. repeat split.
    + exact IHs.
Qed.

End StaticPathProviderRuns.

Lemma StaticPathProvider_only_filename_varies_witness :
  fst (call_each SPP.__call__ [None; Some "det"; Some "cam"]
         (SPP.__init__ (AIF.__init__ "x" 3 0 1 "_") "/data" "." 0))
  = [inr {| root := "/data"; resource_dir := "."; filename := "x_000";
            create_dir_depth := 0 |};
     inr {| root := "/data"; resource_dir := "."; filename := "x_001";
            create_dir_depth := 0 |};
     inr {| root := "/data"; resource_dir := "."; filename := "x_002";
            create_dir_depth := 0 |}].
Proof.
  exact (proj1 (StaticPathProvider_only_filename_varies
                  [None; Some "det"; Some "cam"]
                  (SPP.__init__ (AIF.__init__ "x" 3 0 1 "_") "/data" "." 0))).
Defined.

(** ** UUIDFilenameProvider *)

Section UUIDFilenameProviderRuns.
Context `{UuidModule}.

Lemma UUIDFilenameProvider_run (self : UFP.t) :
  run UFP.__call__ self =
  match UFP._uuid_call_func self with
  | by_name f =>
      match UFP._uuid_namespace self, UFP._uuid_name self with
      | Some namespace, Some name =>
          (inr (UUID_str (apply_name_based f namespace name)), self)
      | _, _ => (inl (ValueError (namespace_and_name_must_be_set f)), self)
      end
  | nullary g =>
      (inr (UUID_str (answers g (calls_made g))),
       {| UFP._uuid_call_func := nullary (snd (next_answer g));
          UFP._uuid_namespace := UFP._uuid_namespace self;
          UFP._uuid_name := UFP._uuid_name self |})
  end.
Proof.
  unfold UFP.__call__, run. cbn.
  destruct (UFP._uuid_call_func self) as [f | g].
  - destruct (UFP._uuid_namespace self), (UFP._uuid_name self); reflexivity.
  - reflexivity.
Qed.

(** C3.  With a name-based generator the call raises exactly when the
    namespace or the name is missing, and what it raises is the error
    that both must be set; once the setter has stored a namespace and a
    name, any number of calls return, every one the text of the
    generator applied to that namespace and that name, so equal
    namespaces and names give equal filenames.  With any other generator
    the call returns the text of what the generator answers without
    arguments, whether or not a namespace and a name are stored. *)
Theorem UUIDFilenameProvider_namespace_and_name :
  (forall (f : name_based) (namespace : option UUID) (name : option string),
     let self := {| UFP._uuid_call_func := by_name f;
                    UFP._uuid_namespace := namespace;
                    UFP._uuid_name := name |} in
     (raises (fst (run UFP.__call__ self)) = true <->
      namespace = None \/ name = None) /\
     (raises (fst (run UFP.__call__ self)) = true ->
      run UFP.__call__ self
      = (inl (ValueError (namespace_and_name_must_be_set f)), self)))
  /\
  (forall (f : name_based) (self : UFP.t) (namespace : UUID) (name : string)
          (n : nat),
     UFP._uuid_call_func self = by_name f ->
     let ready :=
       snd (run (UFP.specify_uuid_namespace (Some namespace) (Some name))
              self) in
     call_times UFP.__call__ n ready
     = (repeat (inr (UUID_str (apply_name_based f namespace name))) n, ready))
  /\
  (forall (g : generator) (namespace : option UUID) (name : option string),
     fst (run UFP.__call__ {| UFP._uuid_call_func := nullary g;
                              UFP._uuid_namespace := namespace;
                              UFP._uuid_name := name |})
     = inr (UUID_str (fst (next_answer g)))).
Proof.
  split; [| split].
  - intros f namespace name self. subst self.
    rewrite UUIDFilenameProvider_run. cbn.
    destruct namespace, name; cbn; repeat split;
      try discriminate; try reflexivity; auto;
      intros [E | E]; discriminate E.
  - intros f self namespace name n Hf ready.
    assert (Hrun : run UFP.__call__ ready
                   = (inr (UUID_str (apply_name_based f namespace name)),
                      ready)).
    { rewrite UUIDFilenameProvider_run. subst ready. cbn. rewrite Hf.
      reflexivity. }
    induction n as [| n IH].
    + reflexivity.
    + rewrite call_times_S, Hrun. cbn [fst snd]. rewrite IH. reflexivity.
  - intros g namespace name. rewrite UUIDFilenameProvider_run. reflexivity.
Qed.

End UUIDFilenameProviderRuns.

Lemma UUIDFilenameProvider_namespace_and_name_witness :
  let unset := @UFP.__init__ spelled_out_uuid (by_name uuid5_func) in
  run UFP.__call__ unset
  = (inl (ValueError (namespace_and_name_must_be_set uuid5_func)), unset) /\
  fst (call_times UFP.__call__ 2
         (snd (run (@UFP.specify_uuid_namespace spelled_out_uuid
                      (Some "ns") (Some "scan"))
                 unset)))
  = [inr "5:ns:scan"; inr "5:ns:scan"].
Proof.
  cbv zeta.
  destruct (@UUIDFilenameProvider_namespace_and_name spelled_out_uuid)
    as (Hraise & Hset & _).
  split.
  - apply (proj2 (Hraise uuid5_func None None)). reflexivity.
  - exact (f_equal fst
             (Hset uuid5_func (@UFP.__init__ spelled_out_uuid
                                 (by_name uuid5_func))
                "ns" "scan" 2%nat eq_refl)).
Defined.

(** ** Decimal texts and joined paths *)

Lemma append_assoc (a b c : string) : (a ++ b) ++ c = a ++ b ++ c.
Proof.
  induction a as [| ch a IH]; cbn; [reflexivity | rewrite IH; reflexivity].
Qed.

Lemma digits_free_of_sep (d : Decimal.uint) :
  free_of_sep (NilEmpty.string_of_uint d) = true.
Proof. induction d; cbn; auto. Qed.

Lemma digits_plain (d : Decimal.uint) :
  plain_segment (NilZero.string_of_uint d) = true.
Proof.
  unfold plain_segment.
  destruct d; [reflexivity | ..]; unfold NilZero.string_of_uint;
    (apply andb_true_iff; split; [reflexivity | apply digits_free_of_sep]).
Qed.

(** The decimal text of an integer is a single path segment. *)
Lemma str_plain (n : Z) : plain_segment (str n) = true.
Proof.
  unfold str. destruct n as [| p | p]; cbn [Z.to_int NilZero.string_of_int].
  - reflexivity.
  - apply digits_plain.
  - pose proof (digits_plain (Pos.to_uint p)) as Hd.
    unfold plain_segment in *. cbn.
    apply andb_true_iff in Hd. apply Hd.
Qed.

Lemma plain_not_absolute (s : string) :
  plain_segment s = true -> startswith_sep s = false.
Proof.
  destruct s as [| c s]; [reflexivity |].
  unfold plain_segment. cbn.
  destruct (Ascii.eqb c sep); [discriminate | reflexivity].
Qed.

Lemma free_of_sep_open (s : string) :
  free_of_sep s = true -> endswith_sep s = false.
Proof.
  induction s as [| c s IH]; [reflexivity |].
  cbn [free_of_sep]. intros Hs. apply andb_true_iff in Hs as [Hc Hs].
  destruct s as [| c' s'].
  - cbn. destruct (Ascii.eqb c sep); [discriminate | reflexivity].
  - exact (IH Hs).
Qed.

Lemma plain_open (s : string) :
  plain_segment s = true -> open_path s = true.
Proof.
  unfold plain_segment, open_path. intros Hs.
  apply andb_true_iff in Hs as [Hne Hfree].
  rewrite Hne, (free_of_sep_open s Hfree). reflexivity.
Qed.

Lemma endswith_sep_append (path b : string) :
  is_empty b = false -> endswith_sep (path ++ b) = endswith_sep b.
Proof.
  intros Hb. induction path as [| c path IH]; [reflexivity |].
  cbn [append]. cbn [endswith_sep].
  destruct (path ++ b) as [| c' rest] eqn:E.
  - destruct path, b; discriminate.
  - exact IH.
Qed.

(** Joining a plain segment to an open path appends it after one
    separator and leaves the path open. *)
Lemma join_step_plain (path b : string) :
  open_path path = true -> plain_segment b = true ->
  join_step path b = path ++ String sep b /\
  open_path (path ++ String sep b) = true.
Proof.
  intros Hp Hb. unfold join_step.
  rewrite (plain_not_absolute b Hb).
  unfold open_path in Hp. apply andb_true_iff in Hp as [Hne Hend].
  apply negb_true_iff in Hne, Hend. rewrite Hne, Hend. cbn [orb].
  split; [reflexivity |].
  unfold open_path.
  rewrite endswith_sep_append by reflexivity.
  assert (Hopen : open_path b = true) by (apply plain_open; exact Hb).
  unfold open_path in Hopen. apply andb_true_iff in Hopen as [Hbne Hbend].
  replace (endswith_sep (String sep b)) with (endswith_sep b)
    by (destruct b; [discriminate Hbne | reflexivity]).
  rewrite Hbend.
  destruct path; [discriminate Hne | reflexivity].
Qed.

Lemma separated_cons (a b : string) (rest : list string) :
  separated (a :: b :: rest) = a ++ String sep (separated (b :: rest)).
Proof. reflexivity. Qed.

Lemma os_path_join_plain (p : list string) :
  forall a : string,
    open_path a = true ->
    Forall (fun b => plain_segment b = true) p ->
    os_path_join a p = separated (a :: p).
Proof.
  unfold os_path_join.
  induction p as [| b rest IH]; intros a Ha Hp; [reflexivity |].
  inversion Hp as [| ? ? Hb Hrest]; subst.
  destruct (join_step_plain a b Ha Hb) as [Hstep Hopen].
  cbn [fold_left]. rewrite Hstep, (IH _ Hopen Hrest).
  rewrite separated_cons.
  destruct rest as [| c rest]; [reflexivity |].
  rewrite !separated_cons.
  rewrite append_assoc. reflexivity.
Qed.

(** Plain segments joined by [os.path.join] are the segments written
    with the separator between them. *)
Lemma join_segments_plain (segments : list string) :
  Forall (fun b => plain_segment b = true) segments ->
  join_segments segments = separated segments.
Proof.
  destruct segments as [| a p]; [reflexivity |].
  intros Hs. inversion Hs; subst.
  apply os_path_join_plain; [apply plain_open |]; assumption.
Qed.

(** ** YMDPathProvider *)

Section YMDPathProviderRuns.
Context {F : Type} `{FilenameProvider F}.

Lemma YMDPathProvider_run (self : YMD.t F) (today : date)
    (device_name : option string) :
  run (YMD.__call__ today device_name) self =
  (outcome_map
     (fun filename =>
        {| root := YMD._directory_path self;
           resource_dir :=
             join_segments
               (spec_ymd_segments (YMD._device_name_as_base_dir self)
                  today device_name);
           filename := filename;
           create_dir_depth := YMD._create_dir_depth self |})
     (fst (run filename_provider_call (YMD._filename_provider self))),
   YMD.set_filename_provider self
     (snd (run filename_provider_call (YMD._filename_provider self)))).
Proof.
  unfold YMD.__call__. unfold run at 1. unfold call_held. cbn.
  destruct (run filename_provider_call (YMD._filename_provider self))
    as [[e | filename] fp]; cbn; [reflexivity |].
  destruct device_name as [device |]; [| reflexivity].
  destruct (YMD._device_name_as_base_dir self); reflexivity.
Qed.

Lemma spec_ymd_segments_plain (device_name_as_base_dir : bool) (today : date)
    (device_name : option string) :
  (forall device, device_name = Some device -> plain_segment device = true) ->
  Forall (fun b => plain_segment b = true)
    (spec_ymd_segments device_name_as_base_dir today device_name).
Proof.
  intros Hdevice. unfold spec_ymd_segments.
  destruct device_name as [device |].
  - specialize (Hdevice device eq_refl).
    destruct device_name_as_base_dir; cbn [app];
      repeat (constructor; try apply str_plain; try exact Hdevice).
  - repeat (constructor; try apply str_plain).
Qed.

(** C5.  Whenever the filename provider returns, a call made on the
    date [today] returns as resource directory the join of the segments
    the specification lists: [str] of the year, of the month and of the
    day, unpadded; alone without a device name, after the device name
    when it is not the base directory, before it when it is.  When the
    device name is a single plain segment the join is these segments
    written with a separator between them.  The instance keeps no date:
    in any sequence of calls, every returned directory is the one of the
    date of its own call. *)
Theorem YMDPathProvider_date_segments (self : YMD.t F) :
  (forall (today : date) (device_name : option string) (filename : string)
          (fp : F),
     run filename_provider_call (YMD._filename_provider self)
     = (inr filename, fp) ->
     run (YMD.__call__ today device_name) self
     = (inr {| root := YMD._directory_path self;
               resource_dir :=
                 join_segments
                   (spec_ymd_segments (YMD._device_name_as_base_dir self)
                      today device_name);
               filename := filename;
               create_dir_depth := YMD._create_dir_depth self |},
        YMD.set_filename_provider self fp))
  /\
  (forall (today : date) (device_name : option string),
     (forall device, device_name = Some device ->
                     plain_segment device = true) ->
     join_segments
       (spec_ymd_segments (YMD._device_name_as_base_dir self)
          today device_name)
     = separated
         (spec_ymd_segments (YMD._device_name_as_base_dir self)
            today device_name))
  /\
  (forall calls : list (date * option string),
     Forall2
       (fun call r =>
          forall info : PathInfo, r = inr info ->
            resource_dir info
            = join_segments
                (spec_ymd_segments (YMD._device_name_as_base_dir self)
                   (fst call) (snd call)))
       calls
       (fst (call_each (fun call => YMD.__call__ (fst call) (snd call))
               calls self))).
Proof.
  split; [| split].
  - intros today device_name filename fp E.
    rewrite YMDPathProvider_run, E. reflexivity.
  - intros today device_name Hdevice.
    apply join_segments_plain, spec_ymd_segments_plain, Hdevice.
  - intros calls. revert self.
    induction calls as [| call calls IH]; intros self; [constructor |].
    rewrite call_each_cons, YMDPathProvider_run. cbn [fst snd].
    constructor.
    + intros info E.
      destruct (fst (run filename_provider_call (YMD._filename_provider self)));
        cbn in E; [discriminate E |].
      injection E as <-. reflexivity.
    + exact (IH (YMD.set_filename_provider self _)).
Qed.

End YMDPathProviderRuns.

Lemma YMDPathProvider_date_segments_witness :
  let fp := StaticFilenameProvider.__init__ "f" in
  let today := {| year := 2024; month := 3; day := 7 |} in
  let next_day := {| year := 2024; month := 3; day := 8 |} in
  fst (run (YMD.__call__ today (Some "det")) (YMD.__init__ fp "/data" 0 false))
  = inr {| root := "/data"; resource_dir := "det/2024/3/7"; filename := "f";
           create_dir_depth := 0 |} /\
  fst (run (YMD.__call__ today (Some "det")) (YMD.__init__ fp "/data" 0 true))
  = inr {| root := "/data"; resource_dir := "2024/3/7/det"; filename := "f";
           create_dir_depth := 0 |} /\
  Forall2
    (fun call r =>
       forall info : PathInfo, r = inr info ->
         resource_dir info
         = join_segments (spec_ymd_segments false (fst call) (snd call)))
    [(today, None); (next_day, None)]
    (fst (call_each (fun call => YMD.__call__ (fst call) (snd call))
            [(today, None); (next_day, None)]
            (YMD.__init__ fp "/data" 0 false))).
Proof.
  cbv zeta.
  split; [| split].
  - exact (f_equal fst
             (proj1 (YMDPathProvider_date_segments
                       (YMD.__init__ (StaticFilenameProvider.__init__ "f")
                          "/data" 0 false))
                {| year := 2024; month := 3; day := 7 |} (Some "det") "f"
                (StaticFilenameProvider.__init__ "f") eq_refl)).
  - exact (f_equal fst
             (proj1 (YMDPathProvider_date_segments
                       (YMD.__init__ (StaticFilenameProvider.__init__ "f")
                          "/data" 0 true))
                {| year := 2024; month := 3; day := 7 |} (Some "det") "f"
                (StaticFilenameProvider.__init__ "f") eq_refl)).
  - exact (proj2 (proj2 (YMDPathProvider_date_segments
                           (YMD.__init__ (StaticFilenameProvider.__init__ "f")
                              "/data" 0 false)))
             [({| year := 2024; month := 3; day := 7 |}, None);
              ({| year := 2024; month := 3; day := 8 |}, None)]).
Defined.

(** The dated directories of the specification's example: 7 March 2024,
    no padding, with and without the device name det, and the next day's
    directory on the next day's call. *)
Example YMDPathProvider_on_2024_3_7 :
  let fp := StaticFilenameProvider.__init__ "f" in
  let today := {| year := 2024; month := 3; day := 7 |} in
  let next_day := {| year := 2024; month := 3; day := 8 |} in
  map (outcome_map resource_dir)
    (fst (call_each (fun call => YMD.__call__ (fst call) (snd call))
            [(today, None); (today, Some "det"); (next_day, None)]
            (YMD.__init__ fp "/data" 0 false)))
  = [inr "2024/3/7"; inr "det/2024/3/7"; inr "2024/3/8"] /\
  map (outcome_map resource_dir)
    (fst (call_each (fun call => YMD.__call__ (fst call) (snd call))
            [(today, None); (today, Some "det")]
            (YMD.__init__ fp "/data" 0 true)))
  = [inr "2024/3/7"; inr "2024/3/7/det"].
Proof. vm_compute. split; reflexivity. Qed.

(** A device name that is not a plain segment is joined as
    [os.path.join] joins it: an absolute one used as last component
    stands alone, an empty one used as first component leaves the date
    segments alone. *)
Example YMDPathProvider_device_name_not_plain :
  let fp := StaticFilenameProvider.__init__ "f" in
  let today := {| year := 2024; month := 3; day := 7 |} in
  outcome_map resource_dir
    (fst (run (YMD.__call__ today (Some "/abs"))
            (YMD.__init__ fp "/data" 0 true)))
  = inr "/abs" /\
  outcome_map resource_dir
    (fst (run (YMD.__call__ today (Some EmptyString))
            (YMD.__init__ fp "/data" 0 false)))
  = inr "2024/3/7".
Proof. vm_compute. split; reflexivity. Qed.

(** ** Decimal texts: length, value and injectivity *)

Lemma digits_length (d : Decimal.uint) :
  String.length (NilEmpty.string_of_uint d) = Decimal.nb_digits d.
Proof. induction d; cbn; congruence. Qed.

Lemma usize_nb_digits (d : Decimal.uint) :
  Unsigned.usize d = N.of_nat (Decimal.nb_digits d).
Proof.
  induction d; cbn [Unsigned.usize Decimal.nb_digits];
    rewrite ?IHd; lia.
Qed.

Lemma of_lu_below (d : Decimal.uint) :
  (Unsigned.of_lu d < 10 ^ Unsigned.usize d)%N.
Proof.
  induction d; cbn [Unsigned.of_lu Unsigned.usize];
    rewrite ?N.pow_succ_r'; cbn [N.pow]; lia.
Qed.

Lemma of_uint_below (d : Decimal.uint) :
  (Pos.of_uint d < 10 ^ N.of_nat (Decimal.nb_digits d))%N.
Proof.
  rewrite Unsigned.of_uint_alt.
  rewrite <- (nb_digits_rev d), <- usize_nb_digits.
  apply of_lu_below.
Qed.

Lemma to_uint_normal (p : positive) :
  Decimal.unorm (Pos.to_uint p) = Pos.to_uint p.
Proof.
  rewrite <- (DecimalPos.Unsigned.to_of (Pos.to_uint p)).
  rewrite DecimalPos.Unsigned.of_to. reflexivity.
Qed.

Lemma to_uint_leading (p : positive) :
  Unsigned.hd (Pos.to_uint p) <> 0%N.
Proof.
  pose proof (to_uint_normal p) as Hn.
  pose proof (DecimalPos.Unsigned.to_uint_nonzero p) as Hz.
  pose proof (DecimalPos.Unsigned.to_uint_nonnil p) as Hnil.
  destruct (Pos.to_uint p) as [| d | d | d | d | d | d | d | d | d | d];
    cbn [Unsigned.hd]; try discriminate; try congruence.
  exfalso. rewrite unorm_D0 in Hn. unfold Decimal.unorm in Hn.
  destruct (Decimal.nzhead d) eqn:E;
    try (injection Hn as Hn; subst; apply Hz; reflexivity);
    try discriminate Hn.
  exact (nzhead_nonzero _ _ E).
Qed.

Lemma of_uint_above (d : Decimal.uint) :
  Unsigned.hd d <> 0%N ->
  (10 ^ N.of_nat (Nat.pred (Decimal.nb_digits d)) <= Pos.of_uint d)%N.
Proof.
  destruct d; cbn [Unsigned.hd]; intros Hhd; try congruence;
    cbn [Pos.of_uint Decimal.nb_digits Nat.pred];
    rewrite Unsigned.of_uint_acc_rev, <- usize_nb_digits;
    nia.
Qed.

(** The decimal text of a positive number [p] has [n] characters where
    [10^(n-1) <= p < 10^n]. *)
Lemma str_pos_length (p : positive) :
  let n := len (str (Z.pos p)) in
  1 <= n /\ 10 ^ (n - 1) <= Z.pos p < 10 ^ n.
Proof.
  cbv zeta. unfold len, str. cbn [Z.to_int NilZero.string_of_int].
  assert (Hs : NilZero.string_of_uint (Pos.to_uint p)
               = NilEmpty.string_of_uint (Pos.to_uint p)).
  { pose proof (DecimalPos.Unsigned.to_uint_nonnil p).
    destruct (Pos.to_uint p); [congruence | reflexivity ..]. }
  rewrite Hs, digits_length.
  pose proof (of_uint_below (Pos.to_uint p)) as Hup.
  pose proof (of_uint_above (Pos.to_uint p) (to_uint_leading p)) as Hlow.
  rewrite DecimalPos.Unsigned.of_to in Hup, Hlow.
  pose proof (DecimalPos.Unsigned.to_uint_nonnil p) as Hnil.
  assert (Hn : (Decimal.nb_digits (Pos.to_uint p) <> 0)%nat).
  { intros E. apply Hnil, nb_digits_0, E. }
  set (n := Decimal.nb_digits (Pos.to_uint p)) in *.
  split; [lia |].
  replace (Z.of_nat n - 1) with (Z.of_N (N.of_nat (Nat.pred n))) by lia.
  replace (Z.of_nat n) with (Z.of_N (N.of_nat n)) at 2 by lia.
  change 10 with (Z.of_N 10).
  rewrite <- !N2Z.inj_pow. lia.
Qed.

Lemma str_neg (p : positive) :
  str (Z.neg p) = String "-" (str (Z.pos p)).
Proof. reflexivity. Qed.

Lemma len_str_positive (n : Z) : 1 <= len (str n).
Proof.
  destruct n as [| p | p].
  - cbn. lia.
  - apply (str_pos_length p).
  - rewrite str_neg. pose proof (proj1 (str_pos_length p)).
    unfold len in *. cbn [String.length]. lia.
Qed.

(** The decimal text of [n] fits in [width] characters exactly when [n]
    is below [10^width] and, the sign taking one character, above
    [-10^(width-1)]. *)
Lemma len_str_fits (n width : Z) :
  1 <= width ->
  (len (str n) <= width <-> - 10 ^ (width - 1) < n < 10 ^ width).
Proof.
  intros Hw.
  assert (Hpos : forall (p : positive) (w : Z), 0 <= w ->
            (len (str (Z.pos p)) <= w <-> Z.pos p < 10 ^ w)).
  { intros p w Hw0.
    destruct (str_pos_length p) as [H1 [Hlow Hup]]. cbv zeta in *.
    set (k := len (str (Z.pos p))) in *.
    split; intros Hk.
    - apply Z.lt_le_trans with (10 ^ k); [exact Hup |].
      apply Z.pow_le_mono_r; lia.
    - destruct (Z.le_gt_cases k w) as [Hle | Hgt]; [exact Hle | exfalso].
      assert (10 ^ w <= 10 ^ (k - 1)) by (apply Z.pow_le_mono_r; lia).
      lia. }
  assert (H10 : 0 < 10 ^ width) by (apply Z.pow_pos_nonneg; lia).
  assert (H10' : 0 < 10 ^ (width - 1)) by (apply Z.pow_pos_nonneg; lia).
  destruct n as [| p | p].
  - cbn [str]. change (len (str 0)) with 1. lia.
  - rewrite (Hpos p width) by lia. lia.
  - rewrite str_neg.
    replace (len (String "-" (str (Z.pos p))))
      with (1 + len (str (Z.pos p)))
      by (unfold len; cbn [String.length]; lia).
    pose proof (Hpos p (width - 1) ltac:(lia)) as Hp. lia.
Qed.

Lemma str_injective (a b : Z) : str a = str b -> a = b.
Proof.
  intros E. apply DecimalZ.to_int_inj.
  assert (Hnil : forall z : Z,
            Z.to_int z <> Decimal.Pos Decimal.Nil /\
            Z.to_int z <> Decimal.Neg Decimal.Nil).
  { intros [| p | p]; cbn [Z.to_int]; split; try discriminate;
      intros [= Hp]; exact (DecimalPos.Unsigned.to_uint_nonnil p Hp). }
  assert (Hback : forall z : Z,
            NilZero.int_of_string (str z) = Some (Z.to_int z)).
  { intros z. apply NilZero.isi; apply (Hnil z). }
  pose proof (Hback a) as Ha. rewrite E, Hback in Ha.
  congruence.
Qed.

Lemma uint_of_fill (k : nat) (s : string) :
  NilEmpty.uint_of_string (fill k "0" ++ s)
  = option_map (Nat.iter k Decimal.D0) (NilEmpty.uint_of_string s).
Proof.
  induction k as [| k IH].
  - cbn. destruct (NilEmpty.uint_of_string s); reflexivity.
  - cbn [fill append NilEmpty.uint_of_string]. rewrite IH.
    destruct (NilEmpty.uint_of_string s); reflexivity.
Qed.

Lemma of_uint_leading_zeros (k : nat) (d : Decimal.uint) :
  Pos.of_uint (Nat.iter k Decimal.D0 d) = Pos.of_uint d.
Proof. induction k as [| k IH]; [reflexivity | exact IH]. Qed.

Lemma str_digits (n : Z) :
  0 <= n ->
  option_map Pos.of_uint (NilEmpty.uint_of_string (str n))
  = Some (Z.to_N n).
Proof.
  destruct n as [| p | p]; intros Hn; [reflexivity | | lia].
  unfold str. cbn [Z.to_int NilZero.string_of_int].
  pose proof (DecimalPos.Unsigned.to_uint_nonnil p) as Hnil.
  replace (NilZero.string_of_uint (Pos.to_uint p))
    with (NilEmpty.string_of_uint (Pos.to_uint p))
    by (destruct (Pos.to_uint p); [congruence | reflexivity ..]).
  rewrite NilEmpty.usu. cbn [option_map].
  rewrite DecimalPos.Unsigned.of_to. reflexivity.
Qed.

(** Read as a decimal number, the padded text of a counter that is not
    negative is the counter. *)
Lemma padded_counter_digits (n width : Z) :
  0 <= n ->
  option_map Pos.of_uint (NilEmpty.uint_of_string (rjust (str n) width "0"))
  = Some (Z.to_N n).
Proof.
  intros Hn. unfold rjust.
  destruct (width <=? len (str n)); [apply str_digits, Hn |].
  rewrite uint_of_fill.
  pose proof (str_digits n Hn) as Hd.
  destruct (NilEmpty.uint_of_string (str n)) as [d |]; [| discriminate Hd].
  cbn [option_map] in *. rewrite of_uint_leading_zeros. exact Hd.
Qed.

Lemma padded_counter_injective (a b width : Z) :
  0 <= a -> 0 <= b ->
  rjust (str a) width "0" = rjust (str b) width "0" -> a = b.
Proof.
  intros Ha Hb E.
  pose proof (padded_counter_digits a width Ha) as Da.
  rewrite E, (padded_counter_digits b width Hb) in Da.
  injection Da as Da. lia.
Qed.

Lemma append_injective (prefix a b : string) :
  prefix ++ a = prefix ++ b -> a = b.
Proof.
  induction prefix as [| c prefix IH]; cbn; [auto |].
  intros [= E]. exact (IH E).
Qed.

Lemma length_append (a b : string) :
  String.length (a ++ b) = (String.length a + String.length b)%nat.
Proof. induction a as [| c a IH]; cbn; [reflexivity | rewrite IH; reflexivity]. Qed.

Lemma length_fill (k : nat) (c : ascii) : String.length (fill k c) = k.
Proof. induction k as [| k IH]; cbn; [reflexivity | rewrite IH; reflexivity]. Qed.

Lemma len_rjust (s : string) (width : Z) (c : ascii) :
  len (rjust s width c) = Z.max (len s) width.
Proof.
  unfold rjust. destruct (Z.leb_spec width (len s)); [lia |].
  unfold len in *. rewrite length_append, length_fill. lia.
Qed.

(** ** Runs of calls *)

Lemma call_times_add {Self B : Type} (m : method Self B) (n k : nat)
    (self : Self) :
  call_times m (n + k) self =
  ((fst (call_times m n self)
    ++ fst (call_times m k (snd (call_times m n self))))%list,
   snd (call_times m k (snd (call_times m n self)))).
Proof.
  revert self. induction n as [| n IH]; intros self.
  - cbn [Nat.add]. change (call_times m 0 self) with (@nil (exn + B), self).
    cbn [fst snd app]. destruct (call_times m k self); reflexivity.
  - cbn [Nat.add]. rewrite !call_times_S, IH. reflexivity.
Qed.

Lemma call_times_length {Self B : Type} (m : method Self B) (n : nat)
    (self : Self) :
  length (fst (call_times m n self)) = n.
Proof.
  revert self. induction n as [| n IH]; intros self; [reflexivity |].
  rewrite call_times_S. cbn [fst length]. rewrite IH. reflexivity.
Qed.

Lemma call_times_nth {Self B : Type} (m : method Self B) (n i : nat)
    (self : Self) :
  (i < n)%nat ->
  nth_error (fst (call_times m n self)) i
  = Some (fst (run m (snd (call_times m i self)))).
Proof.
  revert i self. induction n as [| n IH]; intros i self Hi; [lia |].
  rewrite call_times_S. cbn [fst].
  destruct i as [| i]; [reflexivity |].
  cbn [nth_error]. rewrite IH by lia.
  rewrite (call_times_S m i self). reflexivity.
Qed.

Lemma AutoIncrementFilenameProvider_raises_forever (self : AIF.t) (n : nat) :
  AIF._max_digits self < len (str (AIF._current_value self)) ->
  call_times AIF.__call__ n self
  = (repeat (inl (ValueError
                    (counter_exceeded_maximum_digits (AIF._max_digits self))))
       n, self).
Proof.
  intros Hlong.
  assert (E : run AIF.__call__ self
              = (inl (ValueError (counter_exceeded_maximum_digits
                                    (AIF._max_digits self))), self)).
  { rewrite AutoIncrementFilenameProvider_run.
    destruct (Z.gtb_spec (len (str (AIF._current_value self)))
                (AIF._max_digits self)); [reflexivity | lia]. }
  induction n as [| n IH]; [reflexivity |].
  rewrite call_times_S, E. cbn [fst snd repeat]. rewrite IH. reflexivity.
Qed.

Lemma AutoIncrementFilenameProvider_returns_while_fitting (n : nat) :
  forall self : AIF.t,
    (forall i : nat, (i < n)%nat ->
       len (str (AIF._current_value self
                 + Z.of_nat i * AIF._increment self))
       <= AIF._max_digits self) ->
    call_times AIF.__call__ n self =
    (map (fun i : nat =>
            inr (AIF._base_filename self ++ AIF._inc_delimeter self
                 ++ rjust (str (AIF._current_value self
                                + Z.of_nat i * AIF._increment self))
                      (AIF._max_digits self) "0"))
       (seq 0 n),
     AIF.set_current_value self
       (AIF._current_value self + Z.of_nat n * AIF._increment self)).
Proof.
  induction n as [| n IH]; intros self Hfit.
  - cbn. rewrite Z.add_0_r. destruct self; reflexivity.
  - rewrite call_times_S, AutoIncrementFilenameProvider_run.
    pose proof (Hfit 0%nat ltac:(lia)) as H0.
    rewrite Z.mul_0_l, Z.add_0_r in H0.
    destruct (Z.gtb_spec (len (str (AIF._current_value self)))
                (AIF._max_digits self)) as [Hgt | _]; [lia |].
    cbn [fst snd].
    rewrite IH.
    + cbn [fst snd AIF.set_current_value AIF._base_filename
             AIF._inc_delimeter AIF._max_digits AIF._current_value
             AIF._increment].
      cbn [seq map]. rewrite <- seq_shift, map_map.
      rewrite Z.mul_0_l, Z.add_0_r.
      f_equal.
      * f_equal. apply map_ext. intros i.
        replace (AIF._current_value self + AIF._increment self
                 + Z.of_nat i * AIF._increment self)
          with (AIF._current_value self
                + Z.of_nat (S i) * AIF._increment self) by lia.
        reflexivity.
      * replace (AIF._current_value self + AIF._increment self
                 + Z.of_nat n * AIF._increment self)
          with (AIF._current_value self
                + Z.of_nat (S n) * AIF._increment self) by lia.
        reflexivity.
    + intros i Hi.
      cbn [AIF.set_current_value AIF._max_digits AIF._current_value
             AIF._increment].
      replace (AIF._current_value self + AIF._increment self
               + Z.of_nat i * AIF._increment self)
        with (AIF._current_value self
              + Z.of_nat (S i) * AIF._increment self) by lia.
      apply Hfit. lia.
Qed.

(** ** More on AutoIncrementFilenameProvider *)

(** X2.  The provider returns exactly when its counter fits the width: below
    [10^max_digits] and, as the minus sign is counted as a digit, above
    [-10^(max_digits-1)]. *)
Theorem AutoIncrementFilenameProvider_returns_within_range (self : AIF.t) :
  1 <= AIF._max_digits self ->
  (raises (fst (run AIF.__call__ self)) = false <->
   - 10 ^ (AIF._max_digits self - 1) < AIF._current_value self
     < 10 ^ AIF._max_digits self).
Proof.
  intros Hw.
  rewrite <- (len_str_fits _ _ Hw), AutoIncrementFilenameProvider_run.
  destruct (Z.gtb_spec (len (str (AIF._current_value self)))
              (AIF._max_digits self)); cbn [fst raises];
    split; intros; try lia; try reflexivity; discriminate.
Qed.

Lemma AutoIncrementFilenameProvider_returns_within_range_witness :
  raises (fst (run AIF.__call__ (AIF.__init__ "scan" 2 (-9) 1 "_"))) = false
  <-> - 10 ^ (2 - 1) < -9 < 10 ^ 2.
Proof.
  apply (AutoIncrementFilenameProvider_returns_within_range
           (AIF.__init__ "scan" 2 (-9) 1 "_")).
  cbn. lia.
Defined.

(** X3.  With a width of zero or less every call raises, whatever the
    counter, and the instance stays as it is. *)
Theorem AutoIncrementFilenameProvider_without_digits_raises
    (self : AIF.t) (n : nat) :
  AIF._max_digits self <= 0 ->
  call_times AIF.__call__ n self
  = (repeat (inl (ValueError
                    (counter_exceeded_maximum_digits (AIF._max_digits self))))
       n, self).
Proof.
  intros Hw. apply AutoIncrementFilenameProvider_raises_forever.
  pose proof (len_str_positive (AIF._current_value self)). lia.
Qed.

Lemma AutoIncrementFilenameProvider_without_digits_raises_witness :
  call_times AIF.__call__ 3 (AIF.__init__ "scan" 0 0 1 "_")
  = ([inl (ValueError (counter_exceeded_maximum_digits 0));
      inl (ValueError (counter_exceeded_maximum_digits 0));
      inl (ValueError (counter_exceeded_maximum_digits 0))],
     AIF.__init__ "scan" 0 0 1 "_").
Proof.
  apply (AutoIncrementFilenameProvider_without_digits_raises
           (AIF.__init__ "scan" 0 0 1 "_") 3).
  cbn. lia.
Defined.

(** X4.  As long as the counter values [current + i * increment] of the
    first [n] calls stay within the width, these calls return the base
    filename, the delimiter and the padded value of their own call, in
    order, and leave the counter at [current + n * increment]; the
    increment may be zero or negative. *)
Theorem AutoIncrementFilenameProvider_names_of_calls
    (self : AIF.t) (n : nat) :
  1 <= AIF._max_digits self ->
  (forall i : nat, (i < n)%nat ->
     - 10 ^ (AIF._max_digits self - 1)
     < AIF._current_value self + Z.of_nat i * AIF._increment self
     < 10 ^ AIF._max_digits self) ->
  call_times AIF.__call__ n self =
  (map (fun i : nat =>
          inr (AIF._base_filename self ++ AIF._inc_delimeter self
               ++ rjust (str (AIF._current_value self
                              + Z.of_nat i * AIF._increment self))
                    (AIF._max_digits self) "0"))
     (seq 0 n),
   AIF.set_current_value self
     (AIF._current_value self + Z.of_nat n * AIF._increment self)).
Proof.
  intros Hw Hrange.
  apply AutoIncrementFilenameProvider_returns_while_fitting.
  intros i Hi. apply (len_str_fits _ _ Hw), Hrange, Hi.
Qed.

Lemma AutoIncrementFilenameProvider_names_of_calls_witness :
  call_times AIF.__call__ 3 (AIF.__init__ "scan" 2 4 (-3) "-")
  = ([inr "scan-04"; inr "scan-01"; inr "scan--2"],
     AIF.__init__ "scan" 2 (-5) (-3) "-").
Proof.
  apply (AutoIncrementFilenameProvider_names_of_calls
           (AIF.__init__ "scan" 2 4 (-3) "-") 3).
  - cbn. lia.
  - intros i Hi. cbn.
    destruct i as [| [| [| i]]]; cbn; lia.
Defined.

(** X5.  With a counter that is not negative, a positive increment and a
    width of at least one, the number of calls that return is the number
    of values [current, current + increment, ...] below [10^max_digits]:
    these calls return their names in order and every later call raises
    the counter error, the counter resting at the first value that does
    not fit. *)
Theorem AutoIncrementFilenameProvider_capacity (self : AIF.t) (m : nat) :
  0 <= AIF._current_value self ->
  0 < AIF._increment self ->
  1 <= AIF._max_digits self ->
  let n := Z.to_nat ((10 ^ AIF._max_digits self - AIF._current_value self
                      + AIF._increment self - 1) / AIF._increment self) in
  call_times AIF.__call__ (n + m) self =
  ((map (fun i : nat =>
           inr (AIF._base_filename self ++ AIF._inc_delimeter self
                ++ rjust (str (AIF._current_value self
                               + Z.of_nat i * AIF._increment self))
                     (AIF._max_digits self) "0")%string)
      (seq 0 n)
    ++ repeat (inl (ValueError
                      (counter_exceeded_maximum_digits
                         (AIF._max_digits self)))) m)%list,
   AIF.set_current_value self
     (AIF._current_value self + Z.of_nat n * AIF._increment self)).
Proof.
  intros Hv Hinc Hw n.
  set (v := AIF._current_value self) in *.
  set (inc := AIF._increment self) in *.
  set (w := AIF._max_digits self) in *.
  assert (H10 : 0 < 10 ^ (w - 1)) by (apply Z.pow_pos_nonneg; lia).
  set (q := (10 ^ w - v + inc - 1) / inc) in *.
  assert (Hq : inc * (q - 1) < 10 ^ w - v <= inc * q).
  { pose proof (Z.div_mod (10 ^ w - v + inc - 1) inc ltac:(lia)) as Hdm.
    pose proof (Z.mod_pos_bound (10 ^ w - v + inc - 1) inc Hinc) as Hr.
    fold q in Hdm. lia. }
  assert (Hn : Z.of_nat n = Z.max 0 q) by (unfold n; lia).
  assert (Hbefore : forall i : nat, (i < n)%nat ->
            - 10 ^ (w - 1) < v + Z.of_nat i * inc < 10 ^ w).
  { intros i Hi. split; [nia |].
    assert (Z.of_nat i <= q - 1) by lia. nia. }
  assert (Hafter : 10 ^ w <= v + Z.of_nat n * inc).
  { destruct (Z.le_gt_cases 0 q); [| nia].
    rewrite Hn, Z.max_r by lia. lia. }
  rewrite call_times_add.
  rewrite (AutoIncrementFilenameProvider_returns_while_fitting n self)
    by (intros i Hi; apply (len_str_fits _ _ Hw), Hbefore, Hi).
  cbn [fst snd].
  rewrite AutoIncrementFilenameProvider_raises_forever.
  - reflexivity.
  - cbn [AIF.set_current_value AIF._max_digits AIF._current_value].
    fold v inc w.
    pose proof (len_str_fits (v + Z.of_nat n * inc) w Hw) as Hfit. lia.
Qed.

Lemma AutoIncrementFilenameProvider_capacity_witness :
  call_times AIF.__call__ (4 + 2) (AIF.__init__ "scan" 1 2 2 "_")
  = ([inr "scan_2"; inr "scan_4"; inr "scan_6"; inr "scan_8";
      inl (ValueError (counter_exceeded_maximum_digits 1));
      inl (ValueError (counter_exceeded_maximum_digits 1))],
     AIF.__init__ "scan" 1 10 2 "_").
Proof.
  apply (AutoIncrementFilenameProvider_capacity
           (AIF.__init__ "scan" 1 2 2 "_") 2); cbn; lia.
Defined.

(** X6.  Every name the provider returns has the same length: that of the
    base filename and of the delimiter plus [max_digits] characters. *)
Theorem AutoIncrementFilenameProvider_name_width
    (self self' : AIF.t) (name : string) :
  run AIF.__call__ self = (inr name, self') ->
  len name
  = len (AIF._base_filename self) + len (AIF._inc_delimeter self)
    + AIF._max_digits self.
Proof.
  rewrite AutoIncrementFilenameProvider_run.
  destruct (Z.gtb_spec (len (str (AIF._current_value self)))
              (AIF._max_digits self)) as [Hgt | Hle]; [discriminate |].
  intros [= <- _].
  pose proof (len_rjust (str (AIF._current_value self))
                (AIF._max_digits self) "0") as Hpad.
  unfold len in *. rewrite !length_append. lia.
Qed.

Lemma AutoIncrementFilenameProvider_name_width_witness :
  len "scan_00042" = len "scan" + len "_" + 5.
Proof.
  apply (AutoIncrementFilenameProvider_name_width
           (AIF.__init__ "scan" 5 42 1 "_")
           (AIF.__init__ "scan" 5 43 1 "_") "scan_00042").
  reflexivity.
Defined.

(** X7.  A negative counter that fits is written with its padding before the
    minus sign: zeros, then the sign, then the digits. *)
Theorem AutoIncrementFilenameProvider_negative_counter
    (self self' : AIF.t) (name : string) :
  AIF._current_value self < 0 ->
  run AIF.__call__ self = (inr name, self') ->
  name
  = AIF._base_filename self ++ AIF._inc_delimeter self
    ++ fill (Z.to_nat (AIF._max_digits self - 1
                       - len (str (- AIF._current_value self)))) "0"
    ++ String "-" (str (- AIF._current_value self)).
Proof.
  intros Hneg. rewrite AutoIncrementFilenameProvider_run.
  destruct (Z.gtb_spec (len (str (AIF._current_value self)))
              (AIF._max_digits self)) as [Hgt | Hle]; [discriminate |].
  intros [= <- _]. do 2 f_equal.
  destruct (AIF._current_value self) as [| p | p]; try lia.
  cbn [Z.opp]. rewrite str_neg in *.
  assert (Hlen : len (String "-" (str (Z.pos p)))
                 = 1 + len (str (Z.pos p)))
    by (unfold len; cbn [String.length]; lia).
  unfold rjust. rewrite Hlen in *.
  destruct (Z.leb_spec (AIF._max_digits self) (1 + len (str (Z.pos p)))).
  - replace (AIF._max_digits self - 1 - len (str (Z.pos p))) with 0 by lia.
    reflexivity.
  - f_equal. f_equal. lia.
Qed.

Lemma AutoIncrementFilenameProvider_negative_counter_witness :
  "scan_000-5" = "scan" ++ "_" ++ fill (Z.to_nat (5 - 1 - len (str 5))) "0"
                 ++ String "-" (str 5).
Proof.
  apply (AutoIncrementFilenameProvider_negative_counter
           (AIF.__init__ "scan" 5 (-5) 1 "_")
           (AIF.__init__ "scan" 5 (-4) 1 "_") "scan_000-5").
  - cbn. lia.
  - reflexivity.
Defined.

Lemma AutoIncrementFilenameProvider_after_calls (k : nat) :
  forall self : AIF.t,
    0 <= AIF._increment self ->
    let self' := snd (call_times AIF.__call__ k self) in
    AIF._base_filename self' = AIF._base_filename self /\
    AIF._inc_delimeter self' = AIF._inc_delimeter self /\
    AIF._max_digits self' = AIF._max_digits self /\
    AIF._increment self' = AIF._increment self /\
    AIF._current_value self <= AIF._current_value self'.
Proof.
  induction k as [| k IH]; intros self Hinc; cbv zeta.
  - cbn. repeat split; lia.
  - rewrite call_times_S. cbn [snd].
    rewrite AutoIncrementFilenameProvider_run.
    destruct (len (str (AIF._current_value self)) >? AIF._max_digits self);
      cbn [snd].
    + exact (IH self Hinc).
    + destruct (IH (AIF.set_current_value self
                      (AIF._current_value self + AIF._increment self))
                  Hinc) as (Hb & Hd & Hw & Hi & Hv).
      cbn [AIF.set_current_value AIF._base_filename AIF._inc_delimeter
             AIF._max_digits AIF._increment AIF._current_value] in *.
      repeat split; try assumption. lia.
Qed.

(** X8.  With a counter that is not negative and a positive increment the
    provider never returns the same name twice: the names of any two
    different calls of a run differ. *)
Theorem AutoIncrementFilenameProvider_names_never_repeat
    (self : AIF.t) (n i j : nat) (a b : string) :
  0 <= AIF._current_value self ->
  0 < AIF._increment self ->
  (i < j)%nat ->
  nth_error (fst (call_times AIF.__call__ n self)) i = Some (inr a) ->
  nth_error (fst (call_times AIF.__call__ n self)) j = Some (inr b) ->
  a <> b.
Proof.
  intros Hv Hinc Hij Ha Hb.
  assert (Hjn : (j < n)%nat).
  { rewrite <- (call_times_length AIF.__call__ n self).
    apply nth_error_Some. rewrite Hb. discriminate. }
  rewrite call_times_nth in Ha, Hb by lia.
  injection Ha as Ha. injection Hb as Hb.
  replace j with (i + S (j - S i))%nat in Hb by lia.
  rewrite call_times_add in Hb. cbn [snd] in Hb.
  rewrite call_times_S in Hb. cbn [snd] in Hb.
  destruct (AutoIncrementFilenameProvider_after_calls i self ltac:(lia))
    as (Hb1 & Hd1 & Hw1 & Hi1 & Hv1).
  set (self1 := snd (call_times AIF.__call__ i self)) in *.
  rewrite (AutoIncrementFilenameProvider_run self1) in Ha, Hb.
  destruct (len (str (AIF._current_value self1)) >? AIF._max_digits self1)
    in Ha, Hb; cbn [fst snd] in Ha, Hb; [discriminate Ha |].
  injection Ha as Ha.
  set (self2 := AIF.set_current_value self1
                  (AIF._current_value self1 + AIF._increment self1)) in *.
  destruct (AutoIncrementFilenameProvider_after_calls (j - S i) self2)
    as (Hb2 & Hd2 & Hw2 & Hi2 & Hv2).
  { unfold self2. cbn. lia. }
  set (self3 := snd (call_times AIF.__call__ (j - S i) self2)) in *.
  rewrite AutoIncrementFilenameProvider_run in Hb.
  destruct (len (str (AIF._current_value self3)) >? AIF._max_digits self3)
    in Hb; cbn [fst] in Hb; [discriminate Hb |].
  injection Hb as Hb.
  unfold self2 in Hb2, Hd2, Hw2, Hv2.
  cbn [AIF.set_current_value AIF._base_filename AIF._inc_delimeter
         AIF._max_digits AIF._current_value] in Hb2, Hd2, Hw2, Hv2.
  rewrite Hb2, Hd2, Hw2 in Hb.
  intros Eab. rewrite <- Ha, <- Hb in Eab.
  apply append_injective, append_injective in Eab.
  apply padded_counter_injective in Eab; lia.
Qed.

Lemma AutoIncrementFilenameProvider_names_never_repeat_witness :
  "scan_01" <> "scan_03".
Proof.
  apply (AutoIncrementFilenameProvider_names_never_repeat
           (AIF.__init__ "scan" 2 1 1 "_") 4 0 2 "scan_01" "scan_03");
    try reflexivity; cbn; lia.
Defined.

(** ** StaticFilenameProvider *)

(** X1.  Any number of calls return the configured filename, every time, and
    leave the provider as constructed. *)
Theorem StaticFilenameProvider_always_the_filename (filename : string)
    (n : nat) :
  call_times StaticFilenameProvider.__call__ n
    (StaticFilenameProvider.__init__ filename)
  = (repeat (inr filename) n, StaticFilenameProvider.__init__ filename).
Proof.
  induction n as [| n IH]; [reflexivity |].
  rewrite call_times_S, StaticFilenameProvider_run. cbn [fst snd repeat].
  rewrite IH. reflexivity.
Qed.

(** ** More on AutoIncrementingPathProvider *)

Lemma call_each_nth {Self A B : Type} (f : A -> method Self B)
    (args : list A) :
  forall (i : nat) (a : A) (self : Self),
    nth_error args i = Some a ->
    nth_error (fst (call_each f args self)) i
    = Some (fst (run (f a) (snd (call_each f (firstn i args) self)))).
Proof.
  induction args as [| a0 args IH]; intros i a self Hi.
  - destruct i; discriminate Hi.
  - rewrite call_each_cons. cbn [fst].
    destruct i as [| i].
    + injection Hi as <-. reflexivity.
    + cbn [nth_error] in *. rewrite (IH i a _ Hi).
      cbn [firstn]. rewrite call_each_cons. reflexivity.
Qed.

Section AutoIncrementingPathProviderDirectories.
Context {F : Type} `{FilenameProvider F}.

Lemma AutoIncrementingPathProvider_settings_kept
    (hints : list (option string)) :
  forall self : AIP.t F,
    let self' := snd (call_each AIP.__call__ hints self) in
    AIP._base_name self' = AIP._base_name self /\
    AIP._inc_delimeter self' = AIP._inc_delimeter self /\
    AIP._max_digits self' = AIP._max_digits self /\
    AIP._num_calls_per_inc self' = AIP._num_calls_per_inc self.
Proof.
  induction hints as [| hint hints IH]; intros self; cbv zeta.
  - repeat split.
  - rewrite call_each_cons. cbn [snd].
    destruct (IH (snd (run (AIP.__call__ hint) self))) as (Hb & Hd & Hw & HN).
    rewrite Hb, Hd, Hw, HN.
    rewrite AutoIncrementingPathProvider_run.
    destruct (run filename_provider_call (AIP._filename_provider self))
      as [[e | filename] fp]; cbn [snd]; [repeat split |].
    destruct (AIP._inc_counter self + 1 =? AIP._num_calls_per_inc self);
      repeat split.
Qed.

Lemma AutoIncrementingPathProvider_run_directory (self : AIP.t F)
    (device_name : option string) :
  never_raises F ->
  outcome_map resource_dir (fst (run (AIP.__call__ device_name) self))
  = inr (directory_name (AIP._base_name self) device_name
           (AIP._inc_delimeter self)
           (rjust (str (AIP._current_value self))
              (AIP._max_digits self) "0")).
Proof.
  intros Hnever. rewrite AutoIncrementingPathProvider_run.
  specialize (Hnever (AIP._filename_provider self)).
  destruct (run filename_provider_call (AIP._filename_provider self))
    as [[e | filename] fp]; [discriminate Hnever |].
  reflexivity.
Qed.

Lemma AutoIncrementingPathProvider_directory_from
    (self : AIP.t F) (hints : list (option string)) (i : nat)
    (hint : option string) :
  never_raises F ->
  0 <= AIP._inc_counter self < AIP._num_calls_per_inc self ->
  nth_error hints i = Some hint ->
  nth_error
    (map (outcome_map resource_dir)
       (fst (call_each AIP.__call__ hints self)))
    i
  = Some (inr (directory_name (AIP._base_name self) hint
                 (AIP._inc_delimeter self)
                 (rjust (str (AIP._current_value self
                              + (AIP._inc_counter self + Z.of_nat i)
                                / AIP._num_calls_per_inc self))
                    (AIP._max_digits self) "0"))).
Proof.
  intros Hnever Hc Hi.
  rewrite nth_error_map, (call_each_nth _ _ i hint self Hi).
  cbn [option_map].
  rewrite AutoIncrementingPathProvider_run_directory by exact Hnever.
  destruct (AutoIncrementingPathProvider_settings_kept (firstn i hints) self)
    as (Hb & Hd & Hw & _).
  destruct (AutoIncrementingPathProvider_counter_after_calls Hnever
              (firstn i hints) self Hc) as [Hv _].
  rewrite Hb, Hd, Hw, Hv.
  assert (Hlen : length (firstn i hints) = i).
  { apply firstn_length_le.
    apply Nat.lt_le_incl, nth_error_Some. rewrite Hi. discriminate. }
  rewrite Hlen. reflexivity.
Qed.

Lemma directory_name_injective (base_name device_name : option string)
    (inc_delimeter a b : string) :
  directory_name base_name device_name inc_delimeter a
  = directory_name base_name device_name inc_delimeter b ->
  a = b.
Proof.
  unfold directory_name.
  destruct base_name, device_name; intros E;
    repeat apply append_injective in E; exact E.
Qed.

(** X10.  With [N >= 1] calls per increment and a filename provider that never
    raises, call number [i] (from 0) after construction gets the
    directory of counter [starting_value + i / N], named after the
    device name of that call or the base name. *)
Theorem AutoIncrementingPathProvider_directory_of_call
    (filename_provider : F) (directory_path : Path)
    (create_dir_depth max_digits starting_value N increment : Z)
    (inc_delimeter : string) (base_name : option string)
    (hints : list (option string)) (i : nat) (hint : option string) :
  never_raises F ->
  1 <= N ->
  nth_error hints i = Some hint ->
  nth_error
    (map (outcome_map resource_dir)
       (fst (call_each AIP.__call__ hints
               (AIP.__init__ filename_provider directory_path
                  create_dir_depth max_digits starting_value N increment
                  inc_delimeter base_name))))
    i
  = Some (inr (directory_name base_name hint inc_delimeter
                 (rjust (str (starting_value + Z.of_nat i / N))
                    max_digits "0"))).
Proof.
  intros Hnever HN Hi.
  rewrite (AutoIncrementingPathProvider_directory_from _ hints i hint Hnever)
    by (cbn; try lia; exact Hi).
  reflexivity.
Qed.

(** X11.  Called with one and the same device name, with a starting value
    that is not negative, two calls get the same directory exactly when
    they fall in the same group of [N] consecutive calls. *)
Theorem AutoIncrementingPathProvider_directory_per_group
    (filename_provider : F) (directory_path : Path)
    (create_dir_depth max_digits starting_value N increment : Z)
    (inc_delimeter : string) (base_name : option string)
    (hint : option string) (n i j : nat) (a b : exn + Path) :
  never_raises F ->
  1 <= N ->
  0 <= starting_value ->
  let dirs :=
    map (outcome_map resource_dir)
      (fst (call_each AIP.__call__ (repeat hint n)
              (AIP.__init__ filename_provider directory_path
                 create_dir_depth max_digits starting_value N increment
                 inc_delimeter base_name))) in
  nth_error dirs i = Some a ->
  nth_error dirs j = Some b ->
  (a = b <-> Z.of_nat i / N = Z.of_nat j / N).
Proof.
  intros Hnever HN Hstart dirs Ha Hb.
  assert (Hlen : length dirs = n).
  { unfold dirs. rewrite length_map.
    clear. generalize (AIP.__init__ filename_provider directory_path
                         create_dir_depth max_digits starting_value N
                         increment inc_delimeter base_name).
    induction n as [| n IH]; intros s; [reflexivity |].
    cbn [repeat]. rewrite call_each_cons. cbn [fst length].
    rewrite IH. reflexivity. }
  assert (Hi : (i < n)%nat)
    by (rewrite <- Hlen; apply nth_error_Some; rewrite Ha; discriminate).
  assert (Hj : (j < n)%nat)
    by (rewrite <- Hlen; apply nth_error_Some; rewrite Hb; discriminate).
  unfold dirs in Ha, Hb.
  rewrite (AutoIncrementingPathProvider_directory_from _ _ i hint Hnever)
    in Ha by (cbn; try lia; apply nth_error_repeat, Hi).
  rewrite (AutoIncrementingPathProvider_directory_from _ _ j hint Hnever)
    in Hb by (cbn; try lia; apply nth_error_repeat, Hj).
  cbn [AIP.__init__ AIP._base_name AIP._inc_delimeter AIP._current_value
         AIP._inc_counter AIP._num_calls_per_inc AIP._max_digits] in Ha, Hb.
  rewrite !Z.add_0_l in Ha, Hb.
  injection Ha as <-. injection Hb as <-.
  split.
  - intros [= E]. apply directory_name_injective in E.
    apply padded_counter_injective in E.
    + lia.
    + pose proof (Z.div_pos (Z.of_nat i) N). lia.
    + pose proof (Z.div_pos (Z.of_nat j) N). lia.
  - intros E. rewrite E. reflexivity.
Qed.

(** X12.  A number of calls per increment of zero or less is never reached by
    the tally: the counter stays at the starting value and every call
    gets the directory of that value, while the tally counts the
    calls. *)
Theorem AutoIncrementingPathProvider_without_group_size
    (filename_provider : F) (directory_path : Path)
    (create_dir_depth max_digits starting_value N increment : Z)
    (inc_delimeter : string) (base_name : option string)
    (hints : list (option string)) :
  never_raises F ->
  N <= 0 ->
  let self :=
    AIP.__init__ filename_provider directory_path create_dir_depth
      max_digits starting_value N increment inc_delimeter base_name in
  map (outcome_map resource_dir) (fst (call_each AIP.__call__ hints self))
  = map (fun hint =>
           inr (directory_name base_name hint inc_delimeter
                  (rjust (str starting_value) max_digits "0")))
      hints
  /\
  AIP._current_value (snd (call_each AIP.__call__ hints self))
  = starting_value /\
  AIP._inc_counter (snd (call_each AIP.__call__ hints self))
  = Z.of_nat (length hints).
Proof.
  intros Hnever HN self.
  assert (Hgen : forall (hints : list (option string)) (s : AIP.t F),
            AIP._num_calls_per_inc s <= AIP._inc_counter s ->
            map (outcome_map resource_dir)
              (fst (call_each AIP.__call__ hints s))
            = map (fun hint =>
                     inr (directory_name (AIP._base_name s) hint
                            (AIP._inc_delimeter s)
                            (rjust (str (AIP._current_value s))
                               (AIP._max_digits s) "0")))
                hints
            /\
            AIP._current_value (snd (call_each AIP.__call__ hints s))
            = AIP._current_value s /\
            AIP._inc_counter (snd (call_each AIP.__call__ hints s))
            = AIP._inc_counter s + Z.of_nat (length hints)).
  { clear hints. induction hints as [| hint hints IH]; intros s Hs.
    - cbn. repeat split; lia.
    - rewrite call_each_cons. cbn [fst snd map].
      rewrite AutoIncrementingPathProvider_run_directory by exact Hnever.
      destruct (AutoIncrementingPathProvider_step s hint Hnever)
        as (_ & HN' & _ & Hc & Hv).
      destruct (AutoIncrementingPathProvider_settings_kept [hint] s)
        as (Hb & Hd & Hw & _).
      rewrite call_each_cons in Hb, Hd, Hw. cbn [snd call_each] in Hb, Hd, Hw.
      set (s1 := snd (run (AIP.__call__ hint) s)) in *.
      destruct (Z.eqb_spec (AIP._inc_counter s + 1)
                  (AIP._num_calls_per_inc s)) as [Heq | Hne]; [lia |].
      destruct (IH s1) as (IHd & IHv & IHc); [lia |].
      rewrite IHd, IHv, IHc, Hb, Hd, Hw, Hv, Hc.
      repeat split. cbn [length]. lia. }
  destruct (Hgen hints self) as (Hd & Hv & Hc); [cbn; lia |].
  rewrite Hd, Hv, Hc. repeat split.
Qed.

End AutoIncrementingPathProviderDirectories.

Lemma AutoIncrementingPathProvider_counter_after_groups_witness :
  let self' :=
    snd (call_each AIP.__call__
           [None; Some "det"; None; Some "cam"; None; None]
           (AIP.__init__ (StaticFilenameProvider.__init__ "f") "/data" 0 5
              10 3 7 "_" None)) in
  AIP._current_value self' = 10 + 2 /\ AIP._inc_counter self' = 0.
Proof.
  apply (AutoIncrementingPathProvider_counter_after_groups
           (F := StaticFilenameProvider.t)
           StaticFilenameProvider_never_raises
           (StaticFilenameProvider.__init__ "f") "/data" 0 5 10 3 7 "_" None
           2 [None; Some "det"; None; Some "cam"; None; None]);
    cbn; lia.
Defined.

Lemma AutoIncrementingPathProvider_directory_of_call_witness :
  nth_error
    (map (outcome_map resource_dir)
       (fst (call_each AIP.__call__
               [None; Some "det"; None; Some "cam"; None]
               (AIP.__init__ (StaticFilenameProvider.__init__ "f") "/data"
                  0 3 7 2 1 "_" None))))
    3
  = Some (inr "cam_008").
Proof.
  apply (AutoIncrementingPathProvider_directory_of_call
           (F := StaticFilenameProvider.t)
           (StaticFilenameProvider.__init__ "f") "/data" 0 3 7 2 1 "_" None
           [None; Some "det"; None; Some "cam"; None] 3 (Some "cam")
           StaticFilenameProvider_never_raises).
  - lia.
  - reflexivity.
Defined.

Lemma AutoIncrementingPathProvider_directory_per_group_witness :
  @inr exn Path "det_007" = inr "det_007"
  <-> Z.of_nat 2 / 3 = Z.of_nat 0 / 3.
Proof.
  apply (AutoIncrementingPathProvider_directory_per_group
           (F := StaticFilenameProvider.t)
           (StaticFilenameProvider.__init__ "f") "/data" 0 3 7 3 1 "_" None
           (Some "det") 5 2 0 (inr "det_007") (inr "det_007")
           StaticFilenameProvider_never_raises);
    try reflexivity; lia.
Defined.

Lemma AutoIncrementingPathProvider_without_group_size_witness :
  let self :=
    AIP.__init__ (StaticFilenameProvider.__init__ "f") "/data" 0 3 7 0 1
      "_" None in
  map (outcome_map resource_dir)
    (fst (call_each AIP.__call__ [Some "det"; None; Some "det"] self))
  = [inr "det_007"; inr "007"; inr "det_007"] /\
  AIP._current_value
    (snd (call_each AIP.__call__ [Some "det"; None; Some "det"] self)) = 7 /\
  AIP._inc_counter
    (snd (call_each AIP.__call__ [Some "det"; None; Some "det"] self)) = 3.
Proof.
  apply (AutoIncrementingPathProvider_without_group_size
           (F := StaticFilenameProvider.t)
           (StaticFilenameProvider.__init__ "f") "/data" 0 3 7 0 1 "_" None
           [Some "det"; None; Some "det"]
           StaticFilenameProvider_never_raises).
  lia.
Defined.

(** X13.  A path provider over an AutoIncrementFilenameProvider whose counter
    no longer fits is stuck: every call raises the counter error of the
    filename provider and leaves the whole instance, directory counter
    and tally included, as it was. *)
Theorem AutoIncrementingPathProvider_stuck_after_filename_overflow
    (self : AIP.t AIF.t) (hints : list (option string)) :
  AIF._max_digits (AIP._filename_provider self)
  < len (str (AIF._current_value (AIP._filename_provider self))) ->
  call_each AIP.__call__ hints self
  = (map (fun _ =>
            inl (ValueError
                   (counter_exceeded_maximum_digits
                      (AIF._max_digits (AIP._filename_provider self)))))
       hints,
     self).
Proof.
  intros Hlong.
  assert (Hrun : forall hint,
            run (AIP.__call__ hint) self
            = (inl (ValueError
                      (counter_exceeded_maximum_digits
                         (AIF._max_digits (AIP._filename_provider self)))),
               self)).
  { intros hint. rewrite AutoIncrementingPathProvider_run.
    change (run filename_provider_call (AIP._filename_provider self))
      with (run AIF.__call__ (AIP._filename_provider self)).
    rewrite AutoIncrementFilenameProvider_run.
    destruct (Z.gtb_spec
                (len (str (AIF._current_value (AIP._filename_provider self))))
                (AIF._max_digits (AIP._filename_provider self)));
      [| lia].
    destruct self; reflexivity. }
  induction hints as [| hint hints IH]; [reflexivity |].
  rewrite call_each_cons, Hrun. cbn [fst snd map]. rewrite IH. reflexivity.
Qed.

Lemma AutoIncrementingPathProvider_stuck_after_filename_overflow_witness :
  let self :=
    AIP.__init__ (AIF.__init__ "x" 3 1000 1 "_") "/data" 0 5 7 2 1 "_" None in
  call_each AIP.__call__ [Some "det"; None] self
  = ([inl (ValueError (counter_exceeded_maximum_digits 3));
      inl (ValueError (counter_exceeded_maximum_digits 3))],
     self).
Proof.
  apply (AutoIncrementingPathProvider_stuck_after_filename_overflow
           (AIP.__init__ (AIF.__init__ "x" 3 1000 1 "_") "/data" 0 5 7 2 1
              "_" None)
           [Some "det"; None]).
  cbn. lia.
Defined.

(** ** More on YMDPathProvider *)

Lemma plain_split (a a' r r' : string) :
  free_of_sep a = true -> free_of_sep a' = true ->
  a ++ String sep r = a' ++ String sep r' -> a = a' /\ r = r'.
Proof.
  revert a'. induction a as [| c a IH]; intros [| c' a'] Ha Ha' E;
    cbn [append free_of_sep] in *.
  - injection E as E. auto.
  - injection E as Ec E. subst c'.
    rewrite Ascii.eqb_refl in Ha'. discriminate Ha'.
  - injection E as Ec E. subst c.
    rewrite Ascii.eqb_refl in Ha. discriminate Ha.
  - injection E as Ec E. subst c'.
    apply andb_true_iff in Ha as [_ Ha]. apply andb_true_iff in Ha' as [_ Ha'].
    destruct (IH a' Ha Ha' E) as [-> ->]. auto.
Qed.

Lemma separated_injective (l : list string) :
  forall l' : list string,
    Forall (fun b => plain_segment b = true) l ->
    Forall (fun b => plain_segment b = true) l' ->
    length l = length l' ->
    separated l = separated l' -> l = l'.
Proof.
  induction l as [| a l IH]; intros [| a' l'] Hl Hl' Hlen E;
    try discriminate Hlen; [reflexivity |].
  inversion Hl as [| ? ? Ha Hrest]; subst.
  inversion Hl' as [| ? ? Ha' Hrest']; subst.
  destruct l as [| b l], l' as [| b' l']; try discriminate Hlen.
  - cbn in E. subst. reflexivity.
  - rewrite !separated_cons in E.
    unfold plain_segment in Ha, Ha'.
    apply andb_true_iff in Ha as [_ Ha]. apply andb_true_iff in Ha' as [_ Ha'].
    destruct (plain_split _ _ _ _ Ha Ha' E) as [-> E'].
    f_equal. apply IH; [assumption | assumption | | exact E'].
    cbn [length] in *. lia.
Qed.

Section YMDPathProviderFilenames.
Context {F : Type} `{FilenameProvider F}.

(** X14.  Over any sequence of calls the outcomes of a YMDPathProvider are
    those of as many calls of its filename provider, in order: a raise
    is passed on, a filename is returned under the configured root and
    creation depth in the directory of the call's own date and device
    name; the provider changes in its filename provider only. *)
Theorem YMDPathProvider_filenames_in_order
    (calls : list (date * option string)) (self : YMD.t F) :
  fst (call_each (fun call => YMD.__call__ (fst call) (snd call)) calls self)
  = map (fun paired : (date * option string) * (exn + string) =>
           outcome_map
             (fun filename =>
                {| root := YMD._directory_path self;
                   resource_dir :=
                     join_segments
                       (spec_ymd_segments (YMD._device_name_as_base_dir self)
                          (fst (fst paired)) (snd (fst paired)));
                   filename := filename;
                   create_dir_depth := YMD._create_dir_depth self |})
             (snd paired))
      (combine calls
         (fst (call_times filename_provider_call (length calls)
                 (YMD._filename_provider self))))
  /\
  snd (call_each (fun call => YMD.__call__ (fst call) (snd call)) calls self)
  = YMD.set_filename_provider self
      (snd (call_times filename_provider_call (length calls)
              (YMD._filename_provider self))).
Proof.
  revert self. induction calls as [| call calls IH]; intros self.
  - cbn. split; [reflexivity | destruct self; reflexivity].
  - rewrite call_each_cons, YMDPathProvider_run. cbn [fst snd length].
    rewrite call_times_S. cbn [fst snd combine map].
    destruct (IH (YMD.set_filename_provider self
                    (snd (run filename_provider_call
                            (YMD._filename_provider self)))))
      as [IHr IHs].
    cbn [YMD.set_filename_provider YMD._directory_path
           YMD._device_name_as_base_dir YMD._create_dir_depth
           YMD._filename_provider] in IHr, IHs.
    split; [f_equal; exact IHr | exact IHs].
Qed.

(** X15.  Calls made on different dates never share a directory: with the
    same device name, a plain segment or none, and the same placement of
    it, the resource directories of two dates that differ in year,
    month or day differ. *)
Theorem YMDPathProvider_dates_apart
    (self1 self2 self1' self2' : YMD.t F) (date1 date2 : date)
    (device_name : option string) (info1 info2 : PathInfo) :
  YMD._device_name_as_base_dir self1 = YMD._device_name_as_base_dir self2 ->
  (forall device, device_name = Some device ->
                  plain_segment device = true) ->
  date1 <> date2 ->
  run (YMD.__call__ date1 device_name) self1 = (inr info1, self1') ->
  run (YMD.__call__ date2 device_name) self2 = (inr info2, self2') ->
  resource_dir info1 <> resource_dir info2.
Proof.
  intros Hflag Hplain Hdates E1 E2.
  rewrite YMDPathProvider_run in E1, E2.
  destruct (fst (run filename_provider_call (YMD._filename_provider self1)));
    [discriminate E1 |].
  destruct (fst (run filename_provider_call (YMD._filename_provider self2)));
    [discriminate E2 |].
  cbn [outcome_map] in E1, E2.
  injection E1 as <- _. injection E2 as <- _. cbn [resource_dir].
  rewrite <- Hflag.
  rewrite !join_segments_plain by (apply spec_ymd_segments_plain, Hplain).
  intros E. apply separated_injective in E;
    try (apply spec_ymd_segments_plain, Hplain).
  - apply Hdates.
    destruct date1 as [y1 m1 d1], date2 as [y2 m2 d2].
    unfold spec_ymd_segments in E. cbn [year month day] in E.
    destruct device_name as [device |];
      [destruct (YMD._device_name_as_base_dir self1) |];
      cbn [app] in E; injection E as Ey Em Ed;
      apply str_injective in Ey, Em, Ed; subst; reflexivity.
  - unfold spec_ymd_segments.
    destruct device_name; [destruct (YMD._device_name_as_base_dir self1) |];
      reflexivity.
Qed.

End YMDPathProviderFilenames.

Lemma YMDPathProvider_dates_apart_witness :
  "det/2024/1/11" <> "det/2024/11/1".
Proof.
  apply (YMDPathProvider_dates_apart
           (F := StaticFilenameProvider.t)
           (YMD.__init__ (StaticFilenameProvider.__init__ "f") "/data" 0 false)
           (YMD.__init__ (StaticFilenameProvider.__init__ "f") "/data" 0 false)
           (YMD.__init__ (StaticFilenameProvider.__init__ "f") "/data" 0 false)
           (YMD.__init__ (StaticFilenameProvider.__init__ "f") "/data" 0 false)
           {| year := 2024; month := 1; day := 11 |}
           {| year := 2024; month := 11; day := 1 |}
           (Some "det")
           {| root := "/data"; resource_dir := "det/2024/1/11";
              filename := "f"; create_dir_depth := 0 |}
           {| root := "/data"; resource_dir := "det/2024/11/1";
              filename := "f"; create_dir_depth := 0 |}).
  - reflexivity.
  - intros device [= <-]. reflexivity.
  - discriminate.
  - reflexivity.
  - reflexivity.
Defined.

(** ** More on UUIDFilenameProvider *)

Section UUIDFilenameProviderGenerators.
Context `{UuidModule}.

(** X16.  With a generator that is not name-based every call takes exactly one
    answer of the generator: [n] calls return the texts of its next [n]
    answers, in order, and the stored namespace and name are neither
    used nor changed. *)
Theorem UUIDFilenameProvider_one_answer_per_call
    (g : generator) (namespace : option UUID) (name : option string)
    (n : nat) :
  call_times UFP.__call__ n
    {| UFP._uuid_call_func := nullary g;
       UFP._uuid_namespace := namespace;
       UFP._uuid_name := name |}
  = (map (fun i : nat => inr (UUID_str (answers g (calls_made g + i))))
       (seq 0 n),
     {| UFP._uuid_call_func :=
          nullary {| answers := answers g;
                     calls_made := calls_made g + n |};
        UFP._uuid_namespace := namespace;
        UFP._uuid_name := name |}).
Proof.
  revert g. induction n as [| n IH]; intros g.
  - cbn. rewrite Nat.add_0_r. destruct g; reflexivity.
  - rewrite call_times_S, UUIDFilenameProvider_run.
    cbn [UFP._uuid_call_func UFP._uuid_namespace UFP._uuid_name fst snd
           next_answer].
    rewrite IH. cbn [answers calls_made fst snd seq map].
    rewrite Nat.add_0_r, <- seq_shift, map_map.
    f_equal.
    + f_equal. apply map_ext. intros i.
      replace (S (calls_made g) + i)%nat with (calls_made g + S i)%nat by lia.
      reflexivity.
    + replace (S (calls_made g) + n)%nat with (calls_made g + S n)%nat by lia.
      reflexivity.
Qed.

End UUIDFilenameProviderGenerators.
